(** * Qualtiva website tests: configuration, setup/teardown hooks and operator scripts

    A shallow embedding of the repository's own code:
    - [Config]          playwright.config.js (the CI-conditioned fields, the
                        base URL and the projects);
    - [GlobalSetup]     the two global-setup hooks (strict and tolerant);
    - [GlobalTeardown]  the global-teardown hook and the summary it writes;
    - [RunSh], [RunPs1] the bash and PowerShell operator scripts;
    - [AqaPostResults]  scripts/aqa-post-results.ps1, the results uploader;
    - [SpecTests]       five tests of the specification files, each with the
                        [beforeEach] hook of its file.

    Modelling conventions.  Everything the code asks of the outside world
    (browser, file system, environment, network, external commands, clock)
    is an oracle held in a [World] record; oracles that can be asked more than
    once receive the history of events so far, so their answers may change
    between calls.  String formatting is a total function; a library call
    that can raise on the values the script hands it (date arithmetic,
    building a credential object) returns a result or the error.  Every
    script is a computation in the trace-and-exception monad [Eff.M]: it
    appends to the event history and either returns a value or raises. *)

From Stdlib Require Import Ascii PrimFloat.
From stdpp Require Import base option list strings pretty gmap.

Open Scope Z_scope.

(** ** The trace-and-exception monad *)

Module Eff.

Inductive Res (Exn A : Type) : Type :=
  | Val (a : A)
  | Exc (e : Exn).
Arguments Val {Exn A} a.
Arguments Exc {Exn A} e.

Section Monad.
Context {Event Exn : Type}.

(** A computation extends the history (oldest event first) and ends in a
    value or an exception. *)
Definition M (A : Type) : Type := list Event → list Event * Res Exn A.

Definition ret {A} (a : A) : M A := λ h, (h, Val a).

Definition bind {A B} (k : A → M B) (m : M A) : M B := λ h,
  match m h with
  | (h', Val a) => k a h'
  | (h', Exc e) => (h', Exc e)
  end.

Definition emit (ev : Event) : M unit := λ h, (h ++ [ev], Val ()).

Definition throw {A} (e : Exn) : M A := λ h, (h, Exc e).

(** An oracle question whose answer depends on the history. *)
Definition ask {A} (f : list Event → A) : M A := λ h, (h, Val (f h)).

(** [try body catch handler] *)
Definition try_catch {A} (body : M A) (handler : Exn → M A) : M A := λ h,
  match body h with
  | (h', Val a) => (h', Val a)
  | (h', Exc e) => handler e h'
  end.

(** [try body finally fin]: [fin] always runs; an exception raised by [fin]
    replaces the outcome of [body]. *)
Definition try_finally {A} (body : M A) (fin : M unit) : M A := λ h,
  match body h with
  | (h', r) =>
      match fin h' with
      | (h'', Val _) => (h'', r)
      | (h'', Exc e) => (h'', Exc e)
      end
  end.

(** [for (x of xs) body] / [foreach ($x in $xs) { body }] *)
Fixpoint foreach {A} (xs : list A) (body : A → M unit) : M unit :=
  match xs with
  | [] => ret ()
  | x :: xs' => bind (λ _, foreach xs' body) (body x)
  end.

Definition when (b : bool) (m : M unit) : M unit := if b then m else ret ().

(** Running a computation from the empty history. *)
Definition run {A} (m : M A) : list Event * Res Exn A := m [].
Definition trace {A} (m : M A) : list Event := (run m).1.
Definition outcome {A} (m : M A) : Res Exn A := (run m).2.
End Monad.

Arguments M : clear implicits.

#[global] Instance M_ret {Event Exn} : MRet (M Event Exn) := @ret Event Exn.
#[global] Instance M_bind {Event Exn} : MBind (M Event Exn) := @bind Event Exn.

End Eff.

Import Eff.

(** ** playwright.config.js *)

Module Config.

(** [process.env]: a variable is absent ([undefined]) or a string. *)
Definition truthy (v : option string) : bool :=
  match v with
  | None => false
  | Some s => negb (String.eqb s "")
  end.

(** The variable is set to a non-empty string: the only way a value read from
    [process.env] is truthy. *)
Definition CI_set (env : gmap string string) : Prop :=
  ∃ s, env !! "CI" = Some s ∧ s ≠ "".

Record Project := { name : string }.

(** The [use] options; of these, the base URL against which the tests
    resolve [page.goto('/')]. *)
Record Use := { baseURL : string }.

Record PlaywrightConfig := {
  testDir : string;
  fullyParallel : bool;
  forbidOnly : bool;
  retries : Z;
  workers : option Z;   (* [None] is [undefined]: the framework default *)
  use : Use;
  projects : list Project;
  timeout : Z;
  outputDir : string
}.

Definition defineConfig (env : gmap string string) : PlaywrightConfig := {|
  testDir := "./tests";
  fullyParallel := true;
  forbidOnly := negb (negb (truthy (env !! "CI")));
  retries := if truthy (env !! "CI") then 2 else 0;
  workers := if truthy (env !! "CI") then Some 1 else None;
  use := {| baseURL := "https://dev.analytiqa.cloud" |};
  projects := [ {| name := "chromium" |}; {| name := "firefox" |};
                {| name := "webkit" |}; {| name := "Mobile Chrome" |};
                {| name := "Mobile Safari" |}; {| name := "iPad" |};
                {| name := "Edge" |}; {| name := "Low-end Device" |} ];
  timeout := 30000;
  outputDir := "test-results/"
|}.

End Config.

(** ** JSON values and [JSON.stringify(value, null, space)] *)

Module JSON.

#[warnings="-register-all"]
Inductive value : Type :=
  | Str (s : string)
  | Num (n : Z)
  | Arr (xs : list value)
  | Obj (members : list (string * value)).

Definition nl : string := String "010"%char "".

Definition hex_digit (n : N) : ascii :=
  match n with
  | 0%N => "0" | 1%N => "1" | 2%N => "2" | 3%N => "3" | 4%N => "4"
  | 5%N => "5" | 6%N => "6" | 7%N => "7" | 8%N => "8" | 9%N => "9"
  | 10%N => "a" | 11%N => "b" | 12%N => "c" | 13%N => "d" | 14%N => "e"
  | _ => "f"
  end%char.

(** One code unit inside a string literal: the quote, the backslash and the
    control characters are escaped, everything else is copied. *)
Definition quote_char (c : ascii) : string :=
  let n := N_of_ascii c in
  if (n =? 34)%N then String "\"%char (String "034"%char "")
  else if (n =? 92)%N then "\\"
  else if (n =? 8)%N then "\b"
  else if (n =? 9)%N then "\t"
  else if (n =? 10)%N then "\n"
  else if (n =? 12)%N then "\f"
  else if (n =? 13)%N then "\r"
  else if (n <? 32)%N then
    "\u00" +:+ String (hex_digit (n / 16)) (String (hex_digit (n mod 16)) "")
  else String c "".

Fixpoint quote_body (s : string) : string :=
  match s with
  | EmptyString => ""
  | String c s' => quote_char c +:+ quote_body s'
  end.

Definition quote (s : string) : string :=
  String "034"%char (quote_body s) +:+ String "034"%char "".

Fixpoint join (sep : string) (parts : list string) : string :=
  match parts with
  | [] => ""
  | [p] => p
  | p :: ps => p +:+ sep +:+ join sep ps
  end.

(** [wrap open close gap indent parts]: a non-empty array or object body. *)
Definition wrap (open close gap indent : string) (parts : list string) : string :=
  if String.eqb gap "" then open +:+ join "," parts +:+ close
  else
    let stepback := indent in
    let indent := indent +:+ gap in
    open +:+ nl +:+ indent +:+ join ("," +:+ nl +:+ indent) parts
      +:+ nl +:+ stepback +:+ close.

Fixpoint serialize (gap indent : string) (v : value) : string :=
  match v with
  | Str s => quote s
  | Num n => pretty n
  | Arr [] => "[]"
  | Arr xs =>
      wrap "[" "]" gap indent (map (serialize gap (indent +:+ gap)) xs)
  | Obj [] => "{}"
  | Obj ms =>
      wrap "{" "}" gap indent
        (map (λ m, quote m.1 +:+ (if String.eqb gap "" then ":" else ": ")
                     +:+ serialize gap (indent +:+ gap) m.2) ms)
  end.

Fixpoint spaces (n : nat) : string :=
  match n with
  | O => ""
  | S n' => String " "%char (spaces n')
  end.

(** [JSON.stringify(v, null, space)] for a numeric [space] (at most 10). *)
Definition stringify (v : value) (space : nat) : string :=
  serialize (spaces (Nat.min space 10)) "" v.

(** Property access on an object value. *)
Fixpoint assoc (k : string) (ms : list (string * value)) : option value :=
  match ms with
  | [] => None
  | (k', v) :: ms' => if String.eqb k k' then Some v else assoc k ms'
  end.

Definition get (k : string) (v : value) : option value :=
  match v with
  | Obj ms => assoc k ms
  | _ => None
  end.

End JSON.

(** ** global-setup.js: the strict and the tolerant hook *)

Module GlobalSetup.

Inductive Level := Log | Warn | Error.

Inductive Event : Type :=
  | Console (lvl : Level) (args : list string)
  | Launch                                  (* chromium.launch() *)
  | NewContext                              (* browser.newContext() *)
  | NewPage                                 (* context.newPage() *)
  | Goto (url : string) (timeout : option Z)  (* page.goto(url, opts) *)
  | WaitForLoadState (state : string)
  | Title                                   (* page.title() *)
  | StorageState (path : string)            (* context.storageState({path}) *)
  | Close.                                  (* browser.close() *)

(** How each awaited call ends in one execution: fulfilled, or rejected with
    an error carrying a message. *)
Record World := {
  launch : Res string unit;
  newContext : Res string unit;
  newPage : Res string unit;
  goto : string → Res string unit;
  waitForLoadState : Res string unit;
  title : Res string string;
  storageState : Res string unit;
  close : Res string unit;
  now : string                              (* new Date().toISOString() *)
}.

Abbreviation JS := (M Event string).

(** [await f(...)]: the call is made, then it resolves or rejects. *)
Definition await {A} (call : Event) (r : Res string A) : JS A :=
  emit call;;
  match r with
  | Val a => mret a
  | Exc e => throw e
  end.

Definition console_log (s : string) : JS unit := emit (Console Log [s]).
Definition console_warn (s msg : string) : JS unit := emit (Console Warn [s; msg]).
Definition console_error (s msg : string) : JS unit := emit (Console Error [s; msg]).

Record GlobalData := { baseUrl : string; lastCheck : string; data_title : string }.

Module Strict.

Definition globalSetup (config : Config.PlaywrightConfig) (w : World) : JS unit :=
  console_log "🚀 Starting global setup for Qualtiva Solutions tests...";;
  await Launch (launch w);;
  await NewContext (newContext w);;
  await NewPage (newPage w);;
  try_finally
    (try_catch
       (console_log "📡 Checking website accessibility...";;
        await (Goto "https://dev.analytiqa.cloud" None)
              (goto w "https://dev.analytiqa.cloud");;
        await (WaitForLoadState "networkidle") (waitForLoadState w);;
        title ← await Title (title w);
        console_log ("✅ Website loaded successfully. Title: " +:+ title);;
        let globalData := {| baseUrl := "https://dev.analytiqa.cloud";
                             lastCheck := now w;
                             data_title := title |} in
        await (StorageState "global-state.json") (storageState w);;
        console_log "✅ Global setup completed successfully")
       (λ error,
          console_error "❌ Global setup failed:" error;;
          throw error))
    (await Close (close w)).

End Strict.

Module Tolerant.

Definition globalSetup (config : Config.PlaywrightConfig) (w : World) : JS unit :=
  console_log "🚀 Starting global setup for Qualtiva Solutions tests...";;
  await Launch (launch w);;
  await NewContext (newContext w);;
  await NewPage (newPage w);;
  try_finally
    (try_catch
       (console_log "📡 Checking website accessibility...";;
        try_catch
          (await (Goto "https://www-dev.analytiqa.cloud/" (Some 10000))
                 (goto w "https://www-dev.analytiqa.cloud/");;
           await (WaitForLoadState "networkidle") (waitForLoadState w);;
           title ← await Title (title w);
           console_log ("✅ Website loaded successfully. Title: " +:+ title);;
           let globalData := {| baseUrl := "https://www-dev.analytiqa.cloud/";
                                lastCheck := now w;
                                data_title := title |} in
           mret ())
          (λ accessError,
             console_warn "⚠️  Could not verify website accessibility:" accessError;;
             console_log "⏭️  Proceeding with tests - site may not be reachable from this network");;
        await (StorageState "global-state.json") (storageState w);;
        console_log "✅ Global setup completed successfully")
       (λ error,
          console_error "❌ Global setup failed:" error;;
          throw error))
    (await Close (close w)).

End Tolerant.

End GlobalSetup.

(** ** global-teardown.js *)

Module GlobalTeardown.

Inductive Event : Type :=
  | ConsoleLog (s : string)
  | ConsoleError (s msg : string)
  | ExistsSync (path : string)
  | UnlinkSync (path : string)
  | WriteFileSync (path data : string).

Record World := {
  existsSync : string → bool;
  unlinkSync : string → Res string unit;
  writeFileSync : string → string → Res string unit;
  now : string                              (* new Date().toISOString() *)
}.

Abbreviation JS := (M Event string).

Definition call {A} (ev : Event) (r : Res string A) : JS A :=
  emit ev;;
  match r with
  | Val a => mret a
  | Exc e => throw e
  end.

Definition browsers : list string :=
  [ "chromium"; "firefox"; "webkit"; "Mobile Chrome"; "Mobile Safari";
    "iPad"; "Edge"; "Low-end Device" ].

Definition testCategories : list string :=
  [ "Home Page"; "Navigation"; "Contact Forms"; "Accessibility";
    "Performance"; "Web Build Best Practices";
    "Cross-browser Compatibility"; "Mobile Responsiveness" ].

(** The object literal bound to [summary]. *)
Definition summary (testRun : string) : JSON.value :=
  JSON.Obj
    [ ("testRun", JSON.Str testRun);
      ("project", JSON.Str "Qualtiva Solutions Website Tests");
      ("browsers", JSON.Arr (JSON.Str <$> browsers));
      ("totalBrowsers", JSON.Num 8);
      ("testCategories", JSON.Arr (JSON.Str <$> testCategories)) ].

Definition globalTeardown (config : Config.PlaywrightConfig) (w : World) : JS unit :=
  emit (ConsoleLog "🧹 Starting global teardown...");;
  try_catch
    (let tempFiles := ["global-state.json"] in
     foreach tempFiles (λ file,
       b ← call (ExistsSync file) (Val (existsSync w file));
       when b
         (call (UnlinkSync file) (unlinkSync w file);;
          emit (ConsoleLog ("🗑️  Cleaned up " +:+ file))));;
     let summary := summary (now w) in
     call (WriteFileSync "test-results/summary.json" (JSON.stringify summary 2))
          (writeFileSync w "test-results/summary.json" (JSON.stringify summary 2));;
     emit (ConsoleLog "✅ Global teardown completed successfully");;
     emit (ConsoleLog "📊 Test summary saved to test-results/summary.json"))
    (λ error,
       emit (ConsoleError "❌ Global teardown failed:" error)).

End GlobalTeardown.

(** ** The text of test-results/summary.json, written out *)

Module SummaryFile.

Definition dq : string := String "034"%char "".
Definition lf : string := String "010"%char "".

(** A text without any character to escape, between double quotes. *)
Definition quoted (s : string) : string := dq +:+ s +:+ dq.

(** The elements of an array of strings inside the top-level object: one
    per line, indented by four spaces, separated by commas.  A line is given
    by its pieces. *)
Fixpoint elements (xs : list string) : list (list string) :=
  match xs with
  | [] => []
  | [x] => [["    "; quoted x]]
  | x :: xs' => ["    "; quoted x; ","] :: elements xs'
  end.

(** The lines of the file for the literal [stamp] of the time stamp and the
    two lists of names. *)
Definition lines (stamp : string) (browsers categories : list string)
    : list (list string) :=
  [ ["{"];
    ["  "; quoted "testRun"; ": "; stamp; ","];
    ["  "; quoted "project"; ": "; quoted "Qualtiva Solutions Website Tests"; ","];
    ["  "; quoted "browsers"; ": ["] ]
  ++ elements browsers
  ++ [ ["  ],"];
       ["  "; quoted "totalBrowsers"; ": 8,"];
       ["  "; quoted "testCategories"; ": ["] ]
  ++ elements categories
  ++ [ ["  ]"];
       ["}"] ].

(** The lines joined by line feeds, without a final line feed. *)
Fixpoint unlines (ls : list (list string)) : string :=
  match ls with
  | [] => ""
  | [l] => foldr String.append "" l
  | l :: ls' => foldr String.append (lf +:+ unlines ls') l
  end.

Definition text (stamp : string) (browsers categories : list string) : string :=
  unlines (lines stamp browsers categories).

End SummaryFile.

(** ** run.sh: the bash operator script (runs under [set -e]) *)

Module RunSh.

Inductive Event : Type :=
  | Echo (line : string)            (* the argument of [echo] / [echo -e] *)
  | Stderr (line : string)          (* a diagnostic of the shell itself *)
  | Export (name value : string)
  | Exec (argv : list string).      (* an external command *)

Record World := {
  script_name : string;             (* $0 *)
  BASE_URL : option string;         (* the inherited environment *)
  command_v : string → bool;        (* command -v name *)
  test_f : string → bool;           (* [ -f path ] *)
  test_d : string → bool;           (* [ -d path ] *)
  date : string;                    (* $(date +%Y%m%d-%H%M%S) *)
  status : list Event → list string → Z   (* exit status of an external command *)
}.

(** The exception is the exit status the script terminates with. *)
Abbreviation Sh := (M Event Z).

Definition exit {A} (code : Z) : Sh A := throw code.

(** A simple command under [set -e]: a non-zero status ends the script with
    that status; otherwise [$?] is available to the next line. *)
Definition exec (w : World) (argv : list string) : Sh Z :=
  emit (Exec argv);;
  s ← ask (λ h, status w h argv);
  if s =? 0 then mret s else exit s.

Definition RED : string := "\033[0;31m".
Definition GREEN : string := "\033[0;32m".
Definition YELLOW : string := "\033[1;33m".
Definition BLUE : string := "\033[0;34m".
Definition NC : string := "\033[0m".

Definition print_status (msg : string) : Sh unit :=
  emit (Echo (BLUE +:+ "[INFO]" +:+ NC +:+ " " +:+ msg)).
Definition print_success (msg : string) : Sh unit :=
  emit (Echo (GREEN +:+ "[SUCCESS]" +:+ NC +:+ " " +:+ msg)).
Definition print_warning (msg : string) : Sh unit :=
  emit (Echo (YELLOW +:+ "[WARNING]" +:+ NC +:+ " " +:+ msg)).
Definition print_error (msg : string) : Sh unit :=
  emit (Echo (RED +:+ "[ERROR]" +:+ NC +:+ " " +:+ msg)).

Definition check_dependencies (w : World) : Sh unit :=
  print_status "Checking dependencies...";;
  when (negb (command_v w "node"))
    (print_error "Node.js is not installed. Please install Node.js v16 or higher.";;
     exit 1);;
  when (negb (command_v w "npm"))
    (print_error "npm is not installed. Please install npm.";;
     exit 1);;
  when (negb (test_f w "package.json"))
    (print_error "package.json not found. Please run this script from the test directory.";;
     exit 1);;
  print_success "Dependencies check passed".

Definition install_dependencies (w : World) : Sh unit :=
  print_status "Installing dependencies...";;
  exec w ["npm"; "install"];;
  print_success "Dependencies installed".

Definition install_browsers (w : World) : Sh unit :=
  print_status "Installing Playwright browsers...";;
  exec w ["npx"; "playwright"; "install"; "--with-deps"];;
  print_success "Browsers installed".

(** [[ -n "$BASE_URL" ]] *)
Definition base_url_set (w : World) : option string :=
  match BASE_URL w with
  | Some u => if String.eqb u "" then None else Some u
  | None => None
  end.

Definition report_base_url (w : World) : Sh unit :=
  match base_url_set w with
  | Some u => print_status ("Using BASE_URL: " +:+ u)
  | None => print_status "Using default BASE_URL: https://www-dev.analytiqa.cloud/"
  end.

(** The four lines that set up the JUnit output, written out both in
    [run_tests] and in the [ci] clause. *)
Definition junit_env (w : World) : Sh unit :=
  let junit_dir := "./junit-results" in
  exec w ["mkdir"; "-p"; junit_dir];;
  emit (Export "PLAYWRIGHT_JUNIT_OUTPUT_DIR" junit_dir);;
  emit (Export "PLAYWRIGHT_JUNIT_OUTPUT_NAME" ("junit-" +:+ date w +:+ ".xml")).

Definition run_tests (w : World) (test_type description : string) : Sh unit :=
  print_status ("Running " +:+ description +:+ "...");;
  report_base_url w;;
  junit_env w;;
  s ← exec w ["npm"; "run"; test_type];
  if s =? 0 then print_success (description +:+ " completed successfully")
  else (print_error (description +:+ " failed");; exit 1).

Definition show_help (w : World) : Sh unit :=
  let me := script_name w in
  foreach
    [ "Qualtiva Solutions Website Test Runner";
      "";
      "Usage: " +:+ me +:+ " [OPTION] [BASE_URL]";
      "";
      "Options:";
      "  all              Run all tests across all browsers";
      "  desktop          Run tests on desktop browsers only";
      "  mobile           Run tests on mobile browsers only";
      "  performance      Run performance tests only";
      "  accessibility    Run accessibility tests only";
      "  best-practices   Run web build best practices tests only";
      "  cross-browser    Run cross-browser compatibility tests only";
      "  mobile-responsive Run mobile responsiveness tests only";
      "  ci               Run tests with CI reporters (html, junit, json)";
      "  codegen          Run Playwright codegen against site";
      "  setup            Install dependencies and browsers";
      "  report           Show test report";
      "  help             Show this help message";
      "";
      "Environment Variables:";
      "  BASE_URL         Base URL for tests (default: https://www-dev.analytiqa.cloud/)";
      "";
      "Examples:";
      "  " +:+ me +:+ " setup         # Install dependencies and browsers";
      "  " +:+ me +:+ " all           # Run all tests against dev site";
      "  BASE_URL=https://www.qualtiva.solutions " +:+ me +:+ " all  # Run tests against prod";
      "  " +:+ me +:+ " all           # Run all tests";
      "  " +:+ me +:+ " mobile        # Run mobile tests only";
      "  " +:+ me +:+ " ci            # Run tests with CI reporters";
      "  " +:+ me +:+ " codegen       # Open Playwright codegen";
      "  " +:+ me +:+ " report        # Show test report" ]
    (λ line, emit (Echo line)).

(** The [case] statement over literal patterns: the first clause whose
    pattern equals the word runs; the catch-all clause is the default. *)
Fixpoint sh_case (word : string) (clauses : list (string * Sh unit))
    (default : Sh unit) : Sh unit :=
  match clauses with
  | [] => default
  | (p, c) :: rest => if String.eqb word p then c else sh_case word rest default
  end.

(** [local] at the top level of a script is an error of status 1, which
    [set -e] turns into an exit.  The event holds the shell's diagnostic
    without its file-and-line prefix. *)
Definition local_outside_function : Sh unit :=
  emit (Stderr "local: can only be used in a function");;
  exit 1.

(** [${1:-help}]: the first argument, or [help] when it is unset or empty. *)
Definition subcommand (args : list string) : string :=
  match args with
  | a :: _ => if String.eqb a "" then "help" else a
  | [] => "help"
  end.

Definition clauses (w : World) : list (string * Sh unit) :=
  [ ("setup",
       check_dependencies w;;
       install_dependencies w;;
       install_browsers w;;
       print_success "Setup completed successfully");
    ("all",
       check_dependencies w;;
       run_tests w "test:all-browsers" "All browser tests");
    ("desktop",
       check_dependencies w;;
       run_tests w "test:desktop" "Desktop browser tests");
    ("mobile",
       check_dependencies w;;
       run_tests w "test:mobile" "Mobile browser tests");
    ("performance",
       check_dependencies w;;
       run_tests w "test:performance" "Performance tests");
    ("accessibility",
       check_dependencies w;;
       run_tests w "test:accessibility" "Accessibility tests");
    ("best-practices",
       check_dependencies w;;
       run_tests w "test:best-practices" "Web build best practices tests");
    ("cross-browser",
       check_dependencies w;;
       run_tests w "test:cross-browser" "Cross-browser compatibility tests");
    ("mobile-responsive",
       check_dependencies w;;
       run_tests w "test:mobile-responsive" "Mobile responsiveness tests");
    ("ci",
       check_dependencies w;;
       print_status "Running tests with CI reporters...";;
       report_base_url w;;
       junit_env w;;
       exec w ["npx"; "playwright"; "test"; "--reporter=html,junit,json"];;
       mret ());
    ("codegen",
       check_dependencies w;;
       local_outside_function;;
       let codegen_url := "" in
       print_status ("Launching Playwright codegen for: " +:+ codegen_url);;
       exec w ["npx"; "playwright"; "codegen"; codegen_url];;
       mret ());
    ("report",
       if test_d w "playwright-report" then
         print_status "Opening test report...";;
         exec w ["npm"; "run"; "report"];;
         mret ()
       else
         print_warning "No test report found. Run tests first to generate a report.");
    ("help", show_help w) ].

Definition main (args : list string) (w : World) : Sh unit :=
  sh_case (subcommand args) (clauses w) (show_help w).

(** The status the shell process ends with. *)
Definition exit_status (args : list string) (w : World) : Z :=
  match outcome (main args w) with
  | Val _ => 0
  | Exc code => code
  end.

(** *** Vocabulary for the statements about the script *)

(** The sub-commands that run one npm script of the suite, with the script
    name and the description handed to [run_tests]. *)
Definition test_commands : list (string * (string * string)) :=
  [ ("all", ("test:all-browsers", "All browser tests"));
    ("desktop", ("test:desktop", "Desktop browser tests"));
    ("mobile", ("test:mobile", "Mobile browser tests"));
    ("performance", ("test:performance", "Performance tests"));
    ("accessibility", ("test:accessibility", "Accessibility tests"));
    ("best-practices", ("test:best-practices", "Web build best practices tests"));
    ("cross-browser", ("test:cross-browser", "Cross-browser compatibility tests"));
    ("mobile-responsive", ("test:mobile-responsive", "Mobile responsiveness tests")) ].

(** Every sub-command with a clause of its own, [help] apart. *)
Definition working_commands : list string :=
  [ "setup"; "all"; "desktop"; "mobile"; "performance"; "accessibility";
    "best-practices"; "cross-browser"; "mobile-responsive"; "ci"; "codegen";
    "report" ].

(** [check_dependencies] finds node, npm and package.json. *)
Definition deps_ok (w : World) : Prop :=
  command_v w "node" = true ∧ command_v w "npm" = true
  ∧ test_f w "package.json" = true.

(** The line by which the script reports the base URL in use. *)
Definition base_url_line (w : World) : Event :=
  Echo (BLUE +:+ "[INFO]" +:+ NC +:+ " " +:+
        match base_url_set w with
        | Some u => "Using BASE_URL: " +:+ u
        | None => "Using default BASE_URL: https://www-dev.analytiqa.cloud/"
        end).

Definition mkdir_junit : list string := ["mkdir"; "-p"; "./junit-results"].




End RunSh.

(** ** run.ps1: the PowerShell operator script *)

Module RunPs1.

Inductive Event : Type :=
  | NewItemDirectory (path : string)
  | SetEnv (name value : string)
  | Exec (argv : list string).

Record World := {
  Test_Path : string → bool;
  Get_Date : string               (* Get-Date -Format 'yyyyMMdd-HHmmss' *)
}.

(** The script has no [param] block and never reads [$args]; nothing in it
    raises a terminating error. *)
Definition script (args : list string) (w : World) : M Event Empty_set unit :=
  let targetDir := ".\junit-results" in
  when (negb (Test_Path w targetDir)) (emit (NewItemDirectory targetDir));;
  emit (SetEnv "PLAYWRIGHT_JUNIT_OUTPUT_DIR" targetDir);;
  emit (SetEnv "PLAYWRIGHT_JUNIT_OUTPUT_NAME" ("junit-" +:+ Get_Date w +:+ ".xml"));;
  emit (Exec ["npx"; "playwright"; "test"; "--project=chromium"; "--quiet"]).

End RunPs1.

(** ** scripts/aqa-post-results.ps1: the results uploader *)

Module AqaPostResults.

Record Params := {
  ResultsDir : string;
  FileFilter : string;
  ResultFormat : string;
  Engine : string;
  Hours : Z;                        (* [int]: what PowerShell binds is within
                                       the range of Int32; the script is
                                       modelled for every integer *)
  Tags : string;
  Team : string;
  Project : string;
  Application : string;
  Product : string;
  Environment : string
}.

(** The defaults of the [param] block. *)
Definition defaults : Params := {|
  ResultsDir := "./test-results";
  FileFilter := "*results.xml";
  ResultFormat := "junit";
  Engine := "selenium";
  Hours := 72;
  Tags := "";
  Team := "";
  Project := "";
  Application := "";
  Product := "";
  Environment := ""
|}.

(** A [FileInfo]; times are [DateTime] ticks (100 ns). *)
Record FileInfo := {
  Name : string;
  FullName : string;
  LastWriteTime : Z
}.

Definition TicksPerHour : Z := 36000000000.

(** [DateTime.MaxValue.Ticks]: a [DateTime] holds between 0 and this many
    ticks (the last tick of the year 9999). *)
Definition MaxTicks : Z := 3155378975999999999.

(** [-ForegroundColor]; [NoColor] when the switch is not given. *)
Inductive Color := NoColor | Cyan | Gray | DarkGray | Yellow | Green | Red.

(** A [PSCredential]: the user name and the password it was built from. *)
Record PSCredential := {
  UserName : string;
  Password : string
}.

(** The splatted parameters of [Invoke-WebRequest]. *)
Record Request := {
  Uri : string;
  Method : string;
  Headers : gmap string string;
  Body : string;
  Credential : PSCredential;
  UseBasicParsing : bool;
  ErrorAction : string;
  SkipCertificateCheck : bool       (* added on PowerShell 7 and later *)
}.

Record Response := {
  StatusCode : Z;
  Content : string
}.

(** What the [catch] block reads from [$_]: [Exception.Message] and
    [Exception.Response.StatusCode.value__] ([$null] when there is no
    response). *)
Record ErrorRecord := {
  Message : string;
  ResponseStatus : option Z
}.

Inductive Abort : Type :=
  | Exit (code : Z)                 (* [exit code] *)
  | Terminating (err : ErrorRecord).  (* a terminating error *)

(** The errors of the library calls that the script makes outside its [try]
    block: nothing in the script reads them. *)
Definition ArgumentOutOfRange : ErrorRecord :=
  {| Message := "The added or subtracted value results in an un-representable DateTime.";
     ResponseStatus := None |}.

Definition EmptyArgument (parameter : string) : ErrorRecord :=
  {| Message := "Cannot bind argument to parameter '" +:+ parameter
                +:+ "' because it is an empty string.";
     ResponseStatus := None |}.

(** [t.AddHours(h)] for a whole number of hours: the ticks are added, and the
    call raises when the result is not the ticks of a [DateTime]. *)
Definition AddHours (t h : Z) : Res ErrorRecord Z :=
  let ticks := t + h * TicksPerHour in
  if (0 <=? ticks) && (ticks <=? MaxTicks) then Val ticks
  else Exc ArgumentOutOfRange.

Inductive Event : Type :=
  | WriteHost (text : string) (color : Color)
  | WriteWarning (text : string)
  | WriteError (text : string)
  | GetChildItem (pattern : string)
  | GetContent (path : string)
  | InvokeWebRequest (req : Request).

Record World := {
  env : gmap string string;
  Test_Path_Container : string → bool;
  Get_Date : list Event → Z;        (* the clock, in ticks *)
  Join_Path : string → string → string;
  Get_ChildItem : string → list FileInfo;
  Get_Content : list Event → string → Res ErrorRecord string;
  Invoke_WebRequest : list Event → Request → Res ErrorRecord Response;
  PSVersion_Major : Z;
  ToString : Z → string;            (* DateTime.ToString('yyyy-MM-dd HH:mm:ss') *)
  ConvertTo_Json : gmap string string → string   (* ConvertTo-Json -Compress *)
}.

Abbreviation PS := (M Event Abort).

Definition Write_Host (text : string) (color : Color) : PS unit :=
  emit (WriteHost text color).

Definition Write_Warning (text : string) : PS unit :=
  emit (WriteWarning text).

(** Under [$ErrorActionPreference = 'Stop'] the error written is terminating. *)
Definition Write_Error (text : string) : PS unit :=
  emit (WriteError text);;
  throw (Terminating {| Message := text; ResponseStatus := None |}).

Definition exit {A} (code : Z) : PS A := throw (Exit code).

(** A world call that ends in a value or a terminating error. *)
Definition invoke {A} (ev : Event) (f : list Event → Res ErrorRecord A) : PS A :=
  emit ev;;
  r ← ask f;
  match r with
  | Val a => mret a
  | Exc err => throw (Terminating err)
  end.

(** A library call outside any [try]: under [$ErrorActionPreference = 'Stop']
    its error ends the script. *)
Definition library {A} (r : Res ErrorRecord A) : PS A :=
  match r with
  | Val a => mret a
  | Exc err => throw (Terminating err)
  end.

(** [try { body } catch { handler }]: [exit] is not an error and passes through. *)
Definition try_catch_error {A} (body : PS A) (handler : ErrorRecord → PS A) : PS A :=
  try_catch body (λ a,
    match a with
    | Exit code => exit code
    | Terminating err => handler err
    end).

(** [$env:name] *)
Definition env_value (w : World) (name : string) : string :=
  default "" (env w !! name).

(** [Test-Path "env:name"] *)
Definition Test_Path_env (w : World) (name : string) : bool :=
  bool_decide (is_Some (env w !! name)).

Definition requiredEnvVars : list string :=
  ["AQA_USER"; "AQA_PASSWORD"; "AQA_ENDPOINT"].

(** [$list -join sep] *)
Fixpoint join (sep : string) (parts : list string) : string :=
  match parts with
  | [] => ""
  | [p] => p
  | p :: ps => p +:+ sep +:+ join sep ps
  end.

(** A string in a condition: [$null] and the empty string are false. *)
Definition nonempty (s : string) : bool := negb (String.eqb s "").

(** [ConvertTo-SecureString $s -AsPlainText -Force]: the mandatory parameter
    [String] does not bind an empty string. *)
Definition ConvertTo_SecureString (s : string) : Res ErrorRecord string :=
  if nonempty s then Val s else Exc (EmptyArgument "String").

(** [New-Object System.Management.Automation.PSCredential($userName, $password)]:
    the constructor rejects an empty user name. *)
Definition New_PSCredential (userName password : string)
    : Res ErrorRecord PSCredential :=
  if nonempty userName then Val {| UserName := userName; Password := password |}
  else Exc (EmptyArgument "userName").

(** A possibly-null number inside a double-quoted string. *)
Definition show_status (c : option Z) : string :=
  match c with
  | Some n => pretty n
  | None => ""
  end.

Definition headers (p : Params) : gmap string string :=
  list_to_map
    [ ("Content-Type", "application/xml");
      ("Test-Engine-Result-Format", ResultFormat p);
      ("Test-Engine", Engine p);
      ("Tags", Tags p);
      ("aqa-team", Team p);
      ("aqa-project", Project p);
      ("aqa-application", Application p);
      ("aqa-product", Product p);
      ("aqa-environment", Environment p) ].

Definition requestParams (w : World) (url : string) (hdrs : gmap string string)
    (body : string) (credential : PSCredential) : Request := {|
  Uri := url;
  Method := "Post";
  Headers := hdrs;
  Body := body;
  Credential := credential;
  UseBasicParsing := true;
  ErrorAction := "Stop";
  SkipCertificateCheck := 7 <=? PSVersion_Major w
|}.

(** The body of [foreach ($file in $files)]. *)
Definition foreach_body (p : Params) (w : World) (cutoffTime : Z)
    (file : FileInfo) : PS unit :=
  let aqaUser := env_value w "AQA_USER" in
  let aqaPassword := env_value w "AQA_PASSWORD" in
  let aqaEndpoint := env_value w "AQA_ENDPOINT" in
  if LastWriteTime file <? cutoffTime then
    Write_Host ("Skipping " +:+ Name file +:+ " (modified: "
                +:+ ToString w (LastWriteTime file) +:+ ")") DarkGray
  else
    Write_Host ("Posting file: " +:+ Name file) Yellow;;
    let headers := headers p in
    securePassword ← library (ConvertTo_SecureString aqaPassword);
    credential ← library (New_PSCredential aqaUser securePassword);
    let url := aqaEndpoint in
    Write_Host ("Debug - Endpoint: " +:+ url) DarkGray;;
    Write_Host ("Debug - User: " +:+ aqaUser) DarkGray;;
    Write_Host ("Debug - Headers: " +:+ ConvertTo_Json w headers) DarkGray;;
    try_catch_error
      (body ← invoke (GetContent (FullName file))
                     (λ h, Get_Content w h (FullName file));
       let requestParams := requestParams w url headers body credential in
       response ← invoke (InvokeWebRequest requestParams)
                         (λ h, Invoke_WebRequest w h requestParams);
       let statusCode := StatusCode response in
       let responseBody := Content response in
       if (200 <=? statusCode) && (statusCode <? 300) then
         Write_Host ("Successfully posted: " +:+ Name file +:+ " (HTTP "
                     +:+ pretty statusCode +:+ ")") Green;;
         when (nonempty responseBody)
           (Write_Host ("Response: " +:+ responseBody) Gray)
       else
         Write_Host ("Unexpected status: " +:+ Name file +:+ " (HTTP "
                     +:+ pretty statusCode +:+ ")") Yellow;;
         when (nonempty responseBody)
           (Write_Host ("Response: " +:+ responseBody) Gray))
      (λ err,
         let statusCode := ResponseStatus err in
         Write_Host ("Failed to post " +:+ Name file +:+ " (HTTP "
                     +:+ show_status statusCode +:+ ")") Red;;
         Write_Host ("Error: " +:+ Message err) Red;;
         when (bool_decide (statusCode = Some 404))
           (Write_Host "404 Error - Possible issues:" Yellow;;
            Write_Host ("  - Endpoint URL may be incorrect: " +:+ url) Yellow;;
            Write_Host ("  - Server may not be running on " +:+ aqaEndpoint) Yellow;;
            Write_Host "  - Authentication may be required" Yellow;;
            Write_Host "  - Check if the server expects a different endpoint path" Yellow));;
    Write_Host "---" DarkGray.

Definition script (p : Params) (w : World) : PS unit :=
  let missing := filter (λ var, ¬ Test_Path_env w var) requiredEnvVars in
  when (bool_decide (0 < length missing)%nat)
    (Write_Error ("Missing required environment variables: " +:+ join ", " missing);;
     exit 1);;
  let aqaEndpoint := env_value w "AQA_ENDPOINT" in
  when (negb (Test_Path_Container w (ResultsDir p)))
    (Write_Error ("Results directory not found: " +:+ ResultsDir p);;
     exit 1);;
  now ← ask (Get_Date w);
  cutoffTime ← library (AddHours now (- Hours p));
  Write_Host ("Send to " +:+ aqaEndpoint) Cyan;;
  Write_Host ("Using file pattern: " +:+ FileFilter p) Gray;;
  Write_Host ("Using test engine: " +:+ Engine p) Gray;;
  Write_Host ("Using tags: " +:+ Tags p) Gray;;
  Write_Host ("Processing files modified after: " +:+ ToString w cutoffTime
              +:+ " (" +:+ pretty (Hours p) +:+ " hours ago)") Gray;;
  Write_Host "" NoColor;;
  let pattern := Join_Path w (ResultsDir p) (FileFilter p) in
  emit (GetChildItem pattern);;
  let files := Get_ChildItem w pattern in
  when (bool_decide (files = []))
    (Write_Warning ("No files found matching pattern: " +:+ pattern);;
     exit 0);;
  foreach files (foreach_body p w cutoffTime);;
  Write_Host "Done." Green.

(** The exit code of the process running the script: an unhandled
    terminating error ends it with code 1. *)
Definition exit_code (p : Params) (w : World) : Z :=
  match outcome (script p w) with
  | Val _ => 0
  | Exc (Exit code) => code
  | Exc (Terminating _) => 1
  end.

(** *** Vocabulary for the statements about the script *)

(** The required variables that are not set. *)
Definition missing (w : World) : list string :=
  filter (λ var, ¬ Test_Path_env w var) requiredEnvVars.

(** All required variables are set and the results directory exists. *)
Definition ready (p : Params) (w : World) : Prop :=
  missing w = [] ∧ Test_Path_Container w (ResultsDir p) = true.

(** The cutoff of a run, or the error of its computation: the clock is read
    once, before anything is logged. *)
Definition cutoff (p : Params) (w : World) : Res ErrorRecord Z :=
  AddHours (Get_Date w []) (- Hours p).

(** The credential of a run, or the error of its construction. *)
Definition credential (w : World) : Res ErrorRecord PSCredential :=
  match ConvertTo_SecureString (env_value w "AQA_PASSWORD") with
  | Val securePassword => New_PSCredential (env_value w "AQA_USER") securePassword
  | Exc err => Exc err
  end.

(** Neither the user name nor the password is the empty string. *)
Definition can_authenticate (w : World) : Prop :=
  env_value w "AQA_USER" ≠ "" ∧ env_value w "AQA_PASSWORD" ≠ "".

#[global] Instance can_authenticate_dec (w : World) : Decision (can_authenticate w) :=
  decide (env_value w "AQA_USER" ≠ "" ∧ env_value w "AQA_PASSWORD" ≠ "").

Definition pattern (p : Params) (w : World) : string :=
  Join_Path w (ResultsDir p) (FileFilter p).

(** The files the loop runs over. *)
Definition files (p : Params) (w : World) : list FileInfo :=
  Get_ChildItem w (pattern p w).

(** What a run with the cutoff [c] logs before it looks at the files, and the
    enumeration. *)
Definition preamble (p : Params) (w : World) (c : Z) : list Event :=
  [ WriteHost ("Send to " +:+ env_value w "AQA_ENDPOINT") Cyan;
    WriteHost ("Using file pattern: " +:+ FileFilter p) Gray;
    WriteHost ("Using test engine: " +:+ Engine p) Gray;
    WriteHost ("Using tags: " +:+ Tags p) Gray;
    WriteHost ("Processing files modified after: " +:+ ToString w c
               +:+ " (" +:+ pretty (Hours p) +:+ " hours ago)") Gray;
    WriteHost "" NoColor;
    GetChildItem (pattern p w) ].

(** The events one iteration of the loop adds to the history [h]. *)
Definition file_events (p : Params) (w : World) (cutoffTime : Z)
    (h : list Event) (file : FileInfo) : list Event :=
  drop (length h) (foreach_body p w cutoffTime file h).1.

(** The events of the iterations over [fs], one segment per file. *)
Fixpoint segments (p : Params) (w : World) (cutoffTime : Z)
    (h : list Event) (fs : list FileInfo) : list (list Event) :=
  match fs with
  | [] => []
  | file :: fs' =>
      let seg := file_events p w cutoffTime h file in
      seg :: segments p w cutoffTime (h ++ seg) fs'
  end.

(** The requests among some events. *)
Definition requests (evs : list Event) : list Request :=
  omap (λ ev, match ev with InvokeWebRequest req => Some req | _ => None end) evs.

Definition skip_line (w : World) (file : FileInfo) : Event :=
  WriteHost ("Skipping " +:+ Name file +:+ " (modified: "
             +:+ ToString w (LastWriteTime file) +:+ ")") DarkGray.

Definition posting_line (file : FileInfo) : Event :=
  WriteHost ("Posting file: " +:+ Name file) Yellow.

(** What the loop logs over [fs] when the credential cannot be built: the
    files older than the cutoff are skipped, up to the first file that is
    not, at which the script ends. *)
Fixpoint refused_events (w : World) (c : Z) (fs : list FileInfo) : list Event :=
  match fs with
  | [] => []
  | file :: fs' =>
      if LastWriteTime file <? c then skip_line w file :: refused_events w c fs'
      else [posting_line file]
  end.

(** Every file of [fs] is older than the cutoff. *)
Definition all_old (c : Z) (fs : list FileInfo) : bool :=
  forallb (λ file, LastWriteTime file <? c) fs.

(** The four lines that announce a file about to be posted. *)
Definition announce (p : Params) (w : World) (file : FileInfo) : list Event :=
  [ WriteHost ("Posting file: " +:+ Name file) Yellow;
    WriteHost ("Debug - Endpoint: " +:+ env_value w "AQA_ENDPOINT") DarkGray;
    WriteHost ("Debug - User: " +:+ env_value w "AQA_USER") DarkGray;
    WriteHost ("Debug - Headers: " +:+ ConvertTo_Json w (headers p)) DarkGray ].

(** The request sent for a file whose content is [body]. *)
Definition request_for (p : Params) (w : World) (body : string) : Request :=
  requestParams w (env_value w "AQA_ENDPOINT") (headers p) body
    {| UserName := env_value w "AQA_USER";
       Password := env_value w "AQA_PASSWORD" |}.

Definition success_line (file : FileInfo) (statusCode : Z) : Event :=
  WriteHost ("Successfully posted: " +:+ Name file +:+ " (HTTP "
             +:+ pretty statusCode +:+ ")") Green.

Definition unexpected_line (file : FileInfo) (statusCode : Z) : Event :=
  WriteHost ("Unexpected status: " +:+ Name file +:+ " (HTTP "
             +:+ pretty statusCode +:+ ")") Yellow.

(** The echo of a non-empty response body. *)
Definition response_echo (resp : Response) : list Event :=
  if nonempty (Content resp) then [WriteHost ("Response: " +:+ Content resp) Gray]
  else [].

(** What the [catch] block logs for an error. *)
Definition failure_lines (w : World) (file : FileInfo) (err : ErrorRecord)
    : list Event :=
  [ WriteHost ("Failed to post " +:+ Name file +:+ " (HTTP "
               +:+ show_status (ResponseStatus err) +:+ ")") Red;
    WriteHost ("Error: " +:+ Message err) Red ]
  ++ (if bool_decide (ResponseStatus err = Some 404) then
        [ WriteHost "404 Error - Possible issues:" Yellow;
          WriteHost ("  - Endpoint URL may be incorrect: "
                     +:+ env_value w "AQA_ENDPOINT") Yellow;
          WriteHost ("  - Server may not be running on "
                     +:+ env_value w "AQA_ENDPOINT") Yellow;
          WriteHost "  - Authentication may be required" Yellow;
          WriteHost "  - Check if the server expects a different endpoint path" Yellow ]
      else []).

Definition separator : Event := WriteHost "---" DarkGray.
Definition done_line : Event := WriteHost "Done." Green.


End AqaPostResults.

(** ** Sample executions *)

Module Samples.

(** No environment variable set: the configuration of a local run. *)
Definition local_config : Config.PlaywrightConfig := Config.defineConfig ∅.

(** The site cannot be reached; every other call succeeds. *)
Definition site_down : GlobalSetup.World := {|
  GlobalSetup.launch := Val ();
  GlobalSetup.newContext := Val ();
  GlobalSetup.newPage := Val ();
  GlobalSetup.goto := λ _, Exc "net::ERR_NAME_NOT_RESOLVED";
  GlobalSetup.waitForLoadState := Val ();
  GlobalSetup.title := Val "Qualtiva Solutions";
  GlobalSetup.storageState := Val ();
  GlobalSetup.close := Val ();
  GlobalSetup.now := "2025-01-01T00:00:00.000Z"
|}.

(** The site cannot be reached and the storage state cannot be written. *)
Definition site_down_disk_full : GlobalSetup.World := {|
  GlobalSetup.launch := Val ();
  GlobalSetup.newContext := Val ();
  GlobalSetup.newPage := Val ();
  GlobalSetup.goto := λ _, Exc "net::ERR_NAME_NOT_RESOLVED";
  GlobalSetup.waitForLoadState := Val ();
  GlobalSetup.title := Val "Qualtiva Solutions";
  GlobalSetup.storageState := Exc "ENOSPC: no space left on device";
  GlobalSetup.close := Val ();
  GlobalSetup.now := "2025-01-01T00:00:00.000Z"
|}.

(** The browser starts, but no context can be created in it. *)
Definition context_fails : GlobalSetup.World := {|
  GlobalSetup.launch := Val ();
  GlobalSetup.newContext := Exc "browser.newContext: Target closed";
  GlobalSetup.newPage := Val ();
  GlobalSetup.goto := λ _, Val ();
  GlobalSetup.waitForLoadState := Val ();
  GlobalSetup.title := Val "Qualtiva Solutions";
  GlobalSetup.storageState := Val ();
  GlobalSetup.close := Val ();
  GlobalSetup.now := "2025-01-01T00:00:00.000Z"
|}.

(** A teardown in which every file-system call succeeds. *)
Definition teardown_ok : GlobalTeardown.World := {|
  GlobalTeardown.existsSync := λ _, true;
  GlobalTeardown.unlinkSync := λ _, Val ();
  GlobalTeardown.writeFileSync := λ _ _, Val ();
  GlobalTeardown.now := "2025-01-01T00:00:00.000Z"
|}.

(** A machine on which everything is installed and every command succeeds;
    BASE_URL points at production. *)
Definition sh_ready : RunSh.World := {|
  RunSh.script_name := "./run.sh";
  RunSh.BASE_URL := Some "https://www.qualtiva.solutions";
  RunSh.command_v := λ _, true;
  RunSh.test_f := λ _, true;
  RunSh.test_d := λ _, true;
  RunSh.date := "20250101-120000";
  RunSh.status := λ _ _, 0
|}.


End Samples.

(** ** Sample runs of the uploader *)

Module UploadSamples.
Import AqaPostResults.

Definition hour (n : Z) : Z := n * TicksPerHour.

Definition fresh_report : FileInfo :=
  {| Name := "junit-results.xml"; FullName := "/work/test-results/junit-results.xml";
     LastWriteTime := hour 999 |}.
Definition stale_report : FileInfo :=
  {| Name := "old-results.xml"; FullName := "/work/test-results/old-results.xml";
     LastWriteTime := hour 900 |}.
Definition second_report : FileInfo :=
  {| Name := "api-results.xml"; FullName := "/work/test-results/api-results.xml";
     LastWriteTime := hour 928 |}.

Definition credentials : gmap string string :=
  list_to_map [ ("AQA_USER", "qa-bot"); ("AQA_PASSWORD", "s3cret");
                ("AQA_ENDPOINT", "https://qa.example.org/in-http") ].

Definition sent (h : list Event) : nat := length (requests h).

(** Three matching files, one of them stale; the server accepts the first
    request and answers every later one with an error 500 (which
    [Invoke-WebRequest] raises). *)
Definition flaky_server : World := {|
  env := credentials;
  Test_Path_Container := λ _, true;
  Get_Date := λ _, hour 1000;
  Join_Path := λ dir leaf, dir +:+ "/" +:+ leaf;
  Get_ChildItem := λ _, [fresh_report; stale_report; second_report];
  Get_Content := λ _ _, Val "<testsuites/>";
  Invoke_WebRequest := λ h _,
    if bool_decide (sent h ≤ 1)%nat
    then Val {| StatusCode := 201; Content := "stored" |}
    else Exc {| Message := "Response status code does not indicate success: 500";
                ResponseStatus := Some 500 |};
  PSVersion_Major := 7;
  ToString := pretty;
  ConvertTo_Json := λ _, "{}"
|}.

(** The server answers with a status outside 2xx and no exception is raised. *)
Definition odd_server : World := {|
  env := credentials;
  Test_Path_Container := λ _, true;
  Get_Date := λ _, hour 1000;
  Join_Path := λ dir leaf, dir +:+ "/" +:+ leaf;
  Get_ChildItem := λ _, [fresh_report];
  Get_Content := λ _ _, Val "<testsuites/>";
  Invoke_WebRequest := λ _ _, Val {| StatusCode := 302; Content := "" |};
  PSVersion_Major := 5;
  ToString := pretty;
  ConvertTo_Json := λ _, "{}"
|}.


(** Everything is configured, the results directory exists and is empty. *)
Definition empty_directory : World := {|
  env := credentials;
  Test_Path_Container := λ _, true;
  Get_Date := λ _, hour 1000;
  Join_Path := λ dir leaf, dir +:+ "/" +:+ leaf;
  Get_ChildItem := λ _, [];
  Get_Content := λ _ _, Val "";
  Invoke_WebRequest := λ _ _, Val {| StatusCode := 200; Content := "" |};
  PSVersion_Major := 7;
  ToString := pretty;
  ConvertTo_Json := λ _, "{}"
|}.

(** Everything is configured, but the results directory does not exist (so
    no file matches the pattern either). *)
Definition no_directory : World := {|
  env := credentials;
  Test_Path_Container := λ _, false;
  Get_Date := λ _, hour 1000;
  Join_Path := λ dir leaf, dir +:+ "/" +:+ leaf;
  Get_ChildItem := λ _, [];
  Get_Content := λ _ _, Val "";
  Invoke_WebRequest := λ _ _, Val {| StatusCode := 200; Content := "" |};
  PSVersion_Major := 7;
  ToString := pretty;
  ConvertTo_Json := λ _, "{}"
|}.

End UploadSamples.

(** ** Vocabulary for further statements about the uploader *)

Module UploadObs.
Import AqaPostResults.

(** The requests a run with the cutoff [c] is expected to issue over the
    files [fs], when the content of each file is given by [content]: one for
    each file that is not older than the cutoff and can be read, in the order
    of the files. *)
Definition posted (p : Params) (w : World) (c : Z)
    (content : FileInfo → Res ErrorRecord string) (fs : list FileInfo)
    : list Request :=
  omap (λ file,
          if LastWriteTime file <? c then None
          else match content file with
               | Val body => Some (request_for p w body)
               | Exc _ => None
               end) fs.

End UploadObs.

(** ** Further sample runs of the uploader *)

Module UploadCases.
Import AqaPostResults UploadSamples.

(** The one matching file is locked: reading it raises an error that carries
    no HTTP response. *)
Definition locked_file : World := {|
  env := credentials;
  Test_Path_Container := λ _, true;
  Get_Date := λ _, hour 1000;
  Join_Path := λ dir leaf, dir +:+ "/" +:+ leaf;
  Get_ChildItem := λ _, [fresh_report];
  Get_Content := λ _ _,
    Exc {| Message := "The process cannot access the file";
           ResponseStatus := None |};
  Invoke_WebRequest := λ _ _, Val {| StatusCode := 200; Content := "" |};
  PSVersion_Major := 7;
  ToString := pretty;
  ConvertTo_Json := λ _, "{}"
|}.


(** Every variable is set, but the password is the empty string. *)
Definition empty_password : World := {|
  env := list_to_map [ ("AQA_USER", "qa-bot"); ("AQA_PASSWORD", "");
                       ("AQA_ENDPOINT", "https://qa.example.org/in-http") ];
  Test_Path_Container := λ _, true;
  Get_Date := λ _, hour 1000;
  Join_Path := λ dir leaf, dir +:+ "/" +:+ leaf;
  Get_ChildItem := λ _, [fresh_report];
  Get_Content := λ _ _, Val "<testsuites/>";
  Invoke_WebRequest := λ _ _, Val {| StatusCode := 200; Content := "" |};
  PSVersion_Major := 7;
  ToString := pretty;
  ConvertTo_Json := λ _, "{}"
|}.

(** The default parameters with a window of twenty million hours. *)
Definition far_past : Params := {|
  ResultsDir := "./test-results";
  FileFilter := "*results.xml";
  ResultFormat := "junit";
  Engine := "selenium";
  Hours := 20000000;
  Tags := "";
  Team := "";
  Project := "";
  Application := "";
  Product := "";
  Environment := ""
|}.

(** The default parameters with a window of 100 hours. *)
Definition hundred_hours : Params := {|
  ResultsDir := "./test-results";
  FileFilter := "*results.xml";
  ResultFormat := "junit";
  Engine := "selenium";
  Hours := 100;
  Tags := "";
  Team := "";
  Project := "";
  Application := "";
  Product := "";
  Environment := ""
|}.

End UploadCases.

(** ** Further sample machines for the bash script *)

Module ShellCases.

(** node is installed, npm is not. *)
Definition no_npm : RunSh.World := {|
  RunSh.script_name := "./run.sh";
  RunSh.BASE_URL := None;
  RunSh.command_v := λ name, bool_decide (name = "node");
  RunSh.test_f := λ _, true;
  RunSh.test_d := λ _, false;
  RunSh.date := "20250101-120000";
  RunSh.status := λ _ _, 0
|}.

(** Everything is installed; the mobile tests fail. *)
Definition failing_tests : RunSh.World := {|
  RunSh.script_name := "./run.sh";
  RunSh.BASE_URL := None;
  RunSh.command_v := λ _, true;
  RunSh.test_f := λ _, true;
  RunSh.test_d := λ _, false;
  RunSh.date := "20250101-120000";
  RunSh.status := λ _ argv,
    if bool_decide (argv = ["npm"; "run"; "test:mobile"]) then 1 else 0
|}.

(** The registry cannot be reached: [npm install] ends with status 1. *)
Definition install_fails : RunSh.World := {|
  RunSh.script_name := "./run.sh";
  RunSh.BASE_URL := None;
  RunSh.command_v := λ _, true;
  RunSh.test_f := λ _, true;
  RunSh.test_d := λ _, false;
  RunSh.date := "20250101-120000";
  RunSh.status := λ _ argv,
    if bool_decide (argv = ["npm"; "install"]) then 1 else 0
|}.

End ShellCases.

(** ** Vocabulary for further statements about the hooks *)

Module HookObs.

(** How many times [browser.close()] was called. *)
Definition is_close (ev : GlobalSetup.Event) : bool :=
  match ev with
  | GlobalSetup.Close => true
  | _ => false
  end.

Definition closes (evs : list GlobalSetup.Event) : nat :=
  length (filter (λ ev, is_close ev) evs).

(** The three acquisitions before the [try] block succeed. *)
Definition acquired (w : GlobalSetup.World) : Prop :=
  GlobalSetup.launch w = Val () ∧ GlobalSetup.newContext w = Val ()
  ∧ GlobalSetup.newPage w = Val ().

(** The health check of a hook passes: navigation, load state and title. *)
Definition healthy (url : string) (w : GlobalSetup.World) : Prop :=
  GlobalSetup.goto w url = Val () ∧ GlobalSetup.waitForLoadState w = Val ()
  ∧ ∃ t, GlobalSetup.title w = Val t.

(** The temporary state file is absent, or it can be removed. *)
Definition cleanup_ok (w : GlobalTeardown.World) : Prop :=
  GlobalTeardown.existsSync w "global-state.json" = true →
  GlobalTeardown.unlinkSync w "global-state.json" = Val ().

(** The site answers, but closing the browser fails. *)
Definition close_fails : GlobalSetup.World := {|
  GlobalSetup.launch := Val ();
  GlobalSetup.newContext := Val ();
  GlobalSetup.newPage := Val ();
  GlobalSetup.goto := λ _, Exc "net::ERR_NAME_NOT_RESOLVED";
  GlobalSetup.waitForLoadState := Val ();
  GlobalSetup.title := Val "Qualtiva Solutions";
  GlobalSetup.storageState := Val ();
  GlobalSetup.close := Exc "browser.close: Connection closed";
  GlobalSetup.now := "2025-01-01T00:00:00.000Z"
|}.

(** The page loads but never becomes idle. *)
Definition never_idle : GlobalSetup.World := {|
  GlobalSetup.launch := Val ();
  GlobalSetup.newContext := Val ();
  GlobalSetup.newPage := Val ();
  GlobalSetup.goto := λ _, Val ();
  GlobalSetup.waitForLoadState := Exc "page.waitForLoadState: Timeout 30000ms exceeded";
  GlobalSetup.title := Val "Qualtiva Solutions";
  GlobalSetup.storageState := Val ();
  GlobalSetup.close := Val ();
  GlobalSetup.now := "2025-01-01T00:00:00.000Z"
|}.

(** Everything works. *)
Definition site_up : GlobalSetup.World := {|
  GlobalSetup.launch := Val ();
  GlobalSetup.newContext := Val ();
  GlobalSetup.newPage := Val ();
  GlobalSetup.goto := λ _, Val ();
  GlobalSetup.waitForLoadState := Val ();
  GlobalSetup.title := Val "Qualtiva Solutions";
  GlobalSetup.storageState := Val ();
  GlobalSetup.close := Val ();
  GlobalSetup.now := "2025-01-01T00:00:00.000Z"
|}.

(** The state file exists and cannot be removed. *)
Definition state_file_locked : GlobalTeardown.World := {|
  GlobalTeardown.existsSync := λ _, true;
  GlobalTeardown.unlinkSync := λ _, Exc "EPERM: operation not permitted, unlink";
  GlobalTeardown.writeFileSync := λ _ _, Val ();
  GlobalTeardown.now := "2025-01-01T00:00:00.000Z"
|}.

End HookObs.

(** ** The test specifications: console-error budgets and success rates

    The parts of tests/performance.spec.js, tests/web-build-best-practices.spec.js,
    tests/cross-browser-compatibility.spec.js and
    tests/mobile-responsiveness.spec.js that compute something from what the
    page reports.  JavaScript numbers are binary64 floats. *)

Module SpecTests.

Inductive Event : Type :=
  | SetViewportSize (width height : Z)
  | Reload
  | Goto (url : string)
  | WaitForLoadState (state : string)
  | ConsoleLog (text : string)
  | ConsoleLogErrors (label : string) (errors : list string).

(** A console message as the handler sees it: [msg.type()], [msg.text()]. *)
Record ConsoleMessage := { type : string; text : string }.

(** The result of [boundingBox()]. *)
Record Box := { x : float; y : float; width : float; height : float }.

(** What the page and the browser answer during one execution of one test:
    first to the calls of the [beforeEach] hook of its file, when the file
    has one, then to the calls of its body. *)
Record World := {
  beforeEach_goto : Res string unit;              (* page.goto('/') of the hook *)
  beforeEach_waitForLoadState : Res string unit;  (* page.waitForLoadState(...) of the hook *)
  setViewportSize : Res string unit;
  reload : Res string unit;
  goto : Res string unit;                         (* page.goto('/') of the body *)
  waitForLoadState : Res string unit;             (* page.waitForLoadState(...) of the body *)
  console : list ConsoleMessage;    (* the messages that the handler registered
                                       by the body has received when the body
                                       filters them *)
  boundingBoxes : list (Res string (option Box));   (* nth(i).boundingBox() *)
  h1_count : Z;                     (* the count [toHaveCount] settles on *)
  alts : list (Res string (option string));   (* nth(i).getAttribute('alt') *)
  number_to_string : float → string;          (* a number in a template *)
  toFixed1 : float → string                   (* x.toFixed(1) *)
}.

Abbreviation Test := (M Event string).

Definition await {A} (call : Event) (r : Res string A) : Test A :=
  emit call;;
  match r with
  | Val a => mret a
  | Exc e => throw e
  end.

(** A query of the page: nothing observable happens, it resolves or rejects. *)
Definition query {A} (r : Res string A) : Test A :=
  match r with
  | Val a => mret a
  | Exc e => throw e
  end.

(** [expect(...)]: a failed expectation throws. *)
Definition expect (holds : bool) (what : string) : Test unit :=
  if holds then mret () else throw what.

(** [s.includes(sub)] *)
Fixpoint includes (s sub : string) : bool :=
  String.prefix sub s
  || match s with
     | EmptyString => false
     | String _ s' => includes s' sub
     end.

(** [test.beforeEach] of web-build-best-practices.spec.js and of
    mobile-responsiveness.spec.js: it runs before the body of every test of
    the file, and the test fails when it throws. *)
Definition beforeEach_load (w : World) : Test unit :=
  await (Goto "/") (beforeEach_goto w);;
  await (WaitForLoadState "load") (beforeEach_waitForLoadState w).

(** [test.beforeEach] of cross-browser-compatibility.spec.js *)
Definition beforeEach_networkidle (w : World) : Test unit :=
  await (Goto "/") (beforeEach_goto w);;
  await (WaitForLoadState "networkidle") (beforeEach_waitForLoadState w).

(** The array the console handler fills: the texts of the error messages. *)
Definition consoleErrors (w : World) : list string :=
  text <$> filter (λ msg, type msg = "error") (console w).

(** The filter of performance.spec.js. *)
Definition critical_performance (error : string) : bool :=
  negb (includes error "favicon")
  && negb (includes error "analytics")
  && negb (includes error "third-party").

(** The filter of the best-practices and cross-browser specifications. *)
Definition critical_extended (error : string) : bool :=
  negb (includes error "favicon")
  && negb (includes error "analytics")
  && negb (includes error "third-party")
  && negb (includes error "adblock")
  && negb (includes error "extension").

(** performance.spec.js: 'should not have console errors'; this file has no
    [beforeEach] hook. *)
Definition should_not_have_console_errors (w : World) : Test unit :=
  await (Goto "/") (goto w);;
  await (WaitForLoadState "load") (waitForLoadState w);;
  let criticalErrors := filter (λ e, critical_performance e) (consoleErrors w) in
  expect (bool_decide (length criticalErrors = 0%nat)) "toHaveLength(0)".

(** web-build-best-practices.spec.js: 'should have minimal JavaScript
    errors', after the hook of its file *)
Definition should_have_minimal_JavaScript_errors (w : World) : Test unit :=
  beforeEach_load w;;
  await (Goto "/") (goto w);;
  await (WaitForLoadState "load") (waitForLoadState w);;
  let criticalErrors := filter (λ e, critical_extended e) (consoleErrors w) in
  expect (bool_decide (length criticalErrors < 5)%nat) "toBeLessThan(5)";;
  when (bool_decide (0 < length criticalErrors)%nat)
    (emit (ConsoleLogErrors "⚠️  JavaScript errors found:" criticalErrors)).

(** cross-browser-compatibility.spec.js: 'should handle JavaScript errors
    gracefully', after the hook of its file *)
Definition should_handle_JavaScript_errors_gracefully
    (w : World) (browserName : string) : Test unit :=
  beforeEach_networkidle w;;
  await (Goto "/") (goto w);;
  await (WaitForLoadState "networkidle") (waitForLoadState w);;
  let criticalErrors := filter (λ e, critical_extended e) (consoleErrors w) in
  expect (bool_decide (length criticalErrors < 10)%nat) "toBeLessThan(10)";;
  if bool_decide (0 < length criticalErrors)%nat
  then emit (ConsoleLogErrors ("⚠️  " +:+ browserName +:+ " errors:") criticalErrors)
  else emit (ConsoleLog ("✅ No critical errors in " +:+ browserName)).

(** [box.width >= 44 && box.height >= 44] *)
Definition big_enough (box : Box) : bool :=
  PrimFloat.leb 44 (width box) && PrimFloat.leb 44 (height box).

(** The loop of 'should have proper touch targets' over the answers of
    [boundingBox()], with its two counters. *)
Fixpoint touch_targets (w : World) (calls : list (Res string (option Box)))
    (properTouchTargets smallTouchTargets : float) : Test (float * float) :=
  match calls with
  | [] => mret (properTouchTargets, smallTouchTargets)
  | call :: rest =>
      box ← query call;
      match box with
      | Some box =>
          if big_enough box then
            touch_targets w rest (properTouchTargets + 1)%float smallTouchTargets
          else
            emit (ConsoleLog ("⚠️  Small touch target found: "
                              +:+ number_to_string w (width box) +:+ "x"
                              +:+ number_to_string w (height box) +:+ "px"));;
            touch_targets w rest properTouchTargets (smallTouchTargets + 1)%float
      | None => touch_targets w rest properTouchTargets smallTouchTargets
      end
  end.

(** The literals 0.8 and 0.7 as the binary64 values they denote. *)
Definition f0_8 : float := 0x1.999999999999ap-1%float.
Definition f0_7 : float := 0x1.6666666666666p-1%float.

(** mobile-responsiveness.spec.js: 'should have proper touch targets', after
    the hook of its file *)
Definition should_have_proper_touch_targets (w : World) : Test unit :=
  beforeEach_load w;;
  await (SetViewportSize 375 667) (setViewportSize w);;
  await Reload (reload w);;
  await (WaitForLoadState "load") (waitForLoadState w);;
  counters ← touch_targets w (boundingBoxes w) 0%float 0%float;
  let properTouchTargets := counters.1 in
  let smallTouchTargets := counters.2 in
  let successRate :=
    (properTouchTargets / (properTouchTargets + smallTouchTargets))%float in
  expect (PrimFloat.ltb f0_8 successRate) "toBeGreaterThan(0.8)";;
  emit (ConsoleLog ("📊 Touch target success rate: "
                    +:+ toFixed1 w (successRate * 100)%float +:+ "%")).

(** [alt && alt.length > 0] *)
Definition has_alt (alt : option string) : bool :=
  match alt with
  | Some s => negb (String.eqb s "")
  | None => false
  end.

(** The loop counting the images with an alternative text; [imageCount]
    counts the images themselves. *)
Fixpoint count_alts (calls : list (Res string (option string)))
    (imagesWithAlt imageCount : float) : Test (float * float) :=
  match calls with
  | [] => mret (imagesWithAlt, imageCount)
  | call :: rest =>
      alt ← query call;
      if has_alt alt then count_alts rest (imagesWithAlt + 1)%float (imageCount + 1)%float
      else count_alts rest imagesWithAlt (imageCount + 1)%float
  end.

(** mobile-responsiveness.spec.js: 'should meet mobile accessibility
    standards', after the hook of its file *)
Definition should_meet_mobile_accessibility_standards (w : World) : Test unit :=
  beforeEach_load w;;
  await (SetViewportSize 375 667) (setViewportSize w);;
  await Reload (reload w);;
  await (WaitForLoadState "load") (waitForLoadState w);;
  expect (h1_count w =? 1) "toHaveCount(1)";;
  counters ← count_alts (alts w) 0%float 0%float;
  let imagesWithAlt := counters.1 in
  let imageCount := counters.2 in
  let altTextRate := (imagesWithAlt / imageCount)%float in
  expect (PrimFloat.ltb f0_7 altTextRate) "toBeGreaterThan(0.7)";;
  emit (ConsoleLog ("📊 Alt text coverage: "
                    +:+ toFixed1 w (altTextRate * 100)%float +:+ "%")).

(** *** Vocabulary for the statements about the rates *)

(** The float a counter holds after [n] increments from 0. *)
Fixpoint counted (n : nat) : float :=
  match n with
  | O => 0%float
  | S n' => (counted n' + 1)%float
  end.

(** The boxes that are, and that are not, at least 44 by 44. *)
Definition is_proper (b : option Box) : bool :=
  match b with
  | Some box => big_enough box
  | None => false
  end.

Definition is_small (b : option Box) : bool :=
  match b with
  | Some box => negb (big_enough box)
  | None => false
  end.

Definition proper_targets (boxes : list (option Box)) : nat :=
  length (filter (λ b, is_proper b) boxes).

Definition small_targets (boxes : list (option Box)) : nat :=
  length (filter (λ b, is_small b) boxes).

Definition with_alt (images : list (option string)) : nat :=
  length (filter (λ alt, has_alt alt) images).

(** The rate tests on the counters [p] and [s] (or [a] and [n]), against the
    exact comparisons of the fractions. *)
Definition rate_agrees (p s : N) (pf sf : float) : bool :=
  Bool.eqb (PrimFloat.ltb f0_8 (pf / (pf + sf))%float) (4 * (p + s) <? 5 * p)%N.

Definition alt_agrees (a n : N) (af nf : float) : bool :=
  Bool.eqb (PrimFloat.ltb f0_7 (af / nf)%float) (7 * n <? 10 * a)%N.

(** One row of a table of agreements: the second counter runs over [k]
    values from [s]. *)
Fixpoint agree_row (agrees : N → N → float → float → bool)
    (k : nat) (p s : N) (pf sf : float) : bool :=
  match k with
  | O => true
  | S k' => agrees p s pf sf && agree_row agrees k' p (N.succ s) pf (sf + 1)%float
  end.

(** [rows] rows of [k] entries each, the first counter running from [p]. *)
Fixpoint agree_table (agrees : N → N → float → float → bool)
    (rows k : nat) (p : N) (pf : float) : bool :=
  match rows with
  | O => true
  | S rows' =>
      agree_row agrees k p 0%N pf 0%float
      && agree_table agrees rows' k (N.succ p) (pf + 1)%float
  end.

(** The number of elements up to which the agreement is checked. *)
Definition checked_up_to : nat := 400.

End SpecTests.

(** ** Pages used as examples for the browser tests *)

Module PageCases.
Import Eff SpecTests.

Definition box (width height : float) : option Box :=
  Some {| x := 0%float; y := 0%float; width := width; height := height |}.

(** A page with five buttons of 48 by 48, one link of 30 by 20, one hidden
    element without a box, a single h1, and four images of which one has an
    empty alternative text. *)
Definition landing_boxes : list (option Box) :=
  [box 48 48; box 48 48; box 30 20; None; box 48 48; box 48 48; box 48 48].

Definition landing_images : list (option string) :=
  [Some "Logo"; Some ""; Some "Team"; Some "Office"].

Definition landing_page : World :=
  {| beforeEach_goto := Val ();
     beforeEach_waitForLoadState := Val ();
     setViewportSize := Val ();
     reload := Val ();
     goto := Val ();
     waitForLoadState := Val ();
     console := [];
     boundingBoxes := Val <$> landing_boxes;
     h1_count := 1;
     alts := Val <$> landing_images;
     number_to_string := λ _, "n";
     toFixed1 := λ _, "n" |}.

(** The same page on a day the site cannot be reached: the navigation of
    the hook is rejected. *)
Definition unreachable_page : World :=
  {| beforeEach_goto := Exc "net::ERR_NAME_NOT_RESOLVED";
     beforeEach_waitForLoadState := Val ();
     setViewportSize := Val ();
     reload := Val ();
     goto := Val ();
     waitForLoadState := Val ();
     console := [];
     boundingBoxes := Val <$> landing_boxes;
     h1_count := 1;
     alts := Val <$> landing_images;
     number_to_string := λ _, "n";
     toFixed1 := λ _, "n" |}.

End PageCases.

(** * Properties *)

(** Membership of an event in an explicit trace. *)
Ltac find_in_list :=
  repeat first [apply list_elem_of_here | apply list_elem_of_further].

(** ** The monad: basic facts *)

Section EffFacts.
Context {Event Exn : Type}.
Implicit Types h : list Event.

Lemma run_emit ev h : emit (Exn:=Exn) ev h = (h ++ [ev], Val ()).
Proof. reflexivity. Qed.

Lemma bind_val {A B} (m : M Event Exn A) (k : A → M Event Exn B) h h' a :
  m h = (h', Val a) → (m ≫= k) h = k a h'.
Proof. intros Hm. unfold mbind, M_bind, bind. by rewrite Hm. Qed.

Lemma bind_exc {A B} (m : M Event Exn A) (k : A → M Event Exn B) h h' e :
  m h = (h', Exc e) → (m ≫= k) h = (h', Exc e).
Proof. intros Hm. unfold mbind, M_bind, bind. by rewrite Hm. Qed.

(** A loop whose body never raises runs to the end. *)
Lemma foreach_total {A} (body : A → M Event Exn unit) (xs : list A) :
  (∀ x h, ∃ h', body x h = (h', Val ())) →
  ∀ h, ∃ h', foreach xs body h = (h', Val ()).
Proof.
  intros Hbody. induction xs as [|x xs IH]; intros h; simpl.
  - by exists h.
  - destruct (Hbody x h) as [h1 H1]. unfold bind. rewrite H1. apply IH.
Qed.
End EffFacts.

(** ** playwright.config.js *)

Lemma truthy_CI_set (env : gmap string string) :
  Config.truthy (env !! "CI") = true ↔ Config.CI_set env.
Proof.
  unfold Config.truthy, Config.CI_set. destruct (env !! "CI") as [s|].
  - rewrite negb_true_iff, String.eqb_neq. split.
    + intros Hne. by exists s.
    + by intros (s' & [= <-] & Hne).
  - split; [discriminate | by intros (s & Hs & _)].
Qed.

(** C8. The configuration sets [retries] to 2 exactly when the CI variable
    is set (truthy) and to 0 otherwise; it sets [workers] to 1 exactly when
    CI is set and leaves it undefined (the framework default) otherwise;
    [fullyParallel] is true in both cases. *)
Theorem C8_ci_conditions_retries_and_workers (env : gmap string string) :
  let c := Config.defineConfig env in
  (Config.retries c = 2 ↔ Config.CI_set env) ∧
  (Config.retries c = 0 ↔ ¬ Config.CI_set env) ∧
  (Config.workers c = Some 1 ↔ Config.CI_set env) ∧
  (Config.workers c = None ↔ ¬ Config.CI_set env) ∧
  Config.fullyParallel c = true.
Proof.
  simpl. rewrite <- truthy_CI_set.
  destruct (Config.truthy (env !! "CI")); repeat split; try done;
    intros H; try discriminate; by destruct H.
Qed.

(** The profile names of the configuration are the names the teardown
    summary lists. *)
Lemma config_projects_are_summary_browsers (env : gmap string string) :
  Config.name <$> Config.projects (Config.defineConfig env)
  = GlobalTeardown.browsers.
Proof. reflexivity. Qed.

(** ** global-setup.js *)

Section GlobalSetupFacts.
Import GlobalSetup.
Variable config : Config.PlaywrightConfig.

(** Once the [try] block is entered, [browser.close()] is always called,
    in both hooks. *)
Lemma strict_close_after_try (w : World) :
  launch w = Val () → newContext w = Val () → newPage w = Val () →
  Close ∈ trace (Strict.globalSetup config w).
Proof.
  intros Hl Hc Hp. unfold trace, run, Strict.globalSetup.
  unfold mbind, M_bind, bind, try_finally, try_catch, await, console_log,
    console_error, emit, throw, mret, M_ret, ret.
  rewrite Hl, Hc, Hp. simpl.
  destruct (goto w _), (waitForLoadState w), (title w), (storageState w),
    (close w); simpl; find_in_list.
Qed.

Lemma tolerant_close_after_try (w : World) :
  launch w = Val () → newContext w = Val () → newPage w = Val () →
  Close ∈ trace (Tolerant.globalSetup config w).
Proof.
  intros Hl Hc Hp. unfold trace, run, Tolerant.globalSetup.
  unfold mbind, M_bind, bind, try_finally, try_catch, await, console_log,
    console_warn, console_error, emit, throw, mret, M_ret, ret.
  rewrite Hl, Hc, Hp. simpl.
  destruct (goto w _), (waitForLoadState w), (title w), (storageState w),
    (close w); simpl; find_in_list.
Qed.
End GlobalSetupFacts.

Section GlobalSetupClaims.
Import GlobalSetup.
Variable config : Config.PlaywrightConfig.

Ltac run_setup :=
  unfold trace, outcome, run, Strict.globalSetup, Tolerant.globalSetup;
  unfold mbind, M_bind, bind, try_finally, try_catch, await, console_log,
    console_warn, console_error, emit, throw, mret, M_ret, ret.

(** C2 (as amended). In the tolerant hook a failed health-check navigation
    is caught by the inner handler and logged as a warning, and setup goes
    on to save the storage state; the hook returns normally exactly when
    saving the storage state and closing the browser both succeed.  In the
    strict hook the failure is logged as an error and the hook throws. *)
Theorem C2_navigation_failure_handling (w : World) (msg : string) :
  launch w = Val () → newContext w = Val () → newPage w = Val () →
  (goto w "https://www-dev.analytiqa.cloud/" = Exc msg →
     Console Warn ["⚠️  Could not verify website accessibility:"; msg]
       ∈ trace (Tolerant.globalSetup config w)
     ∧ StorageState "global-state.json" ∈ trace (Tolerant.globalSetup config w)
     ∧ (outcome (Tolerant.globalSetup config w) = Val ()
        ↔ storageState w = Val () ∧ close w = Val ()))
  ∧
  (goto w "https://dev.analytiqa.cloud" = Exc msg →
     Console Error ["❌ Global setup failed:"; msg]
       ∈ trace (Strict.globalSetup config w)
     ∧ (∃ e, outcome (Strict.globalSetup config w) = Exc e)
     ∧ (close w = Val () → outcome (Strict.globalSetup config w) = Exc msg)).
Proof.
  intros Hl Hc Hp. split; intros Hg; run_setup; rewrite Hl, Hc, Hp, Hg; simpl.
  - destruct (storageState w) as [[]|e1], (close w) as [[]|e2]; simpl;
      (split; [find_in_list | split; [find_in_list |]]);
      (split; [try discriminate; done | by intros [? ?]]).
  - destruct (close w) as [[]|e2]; simpl;
      (split; [find_in_list | split; [eauto | done]]).
Qed.
End GlobalSetupClaims.

Lemma C2_navigation_failure_handling_witness :
  GlobalSetup.Console GlobalSetup.Warn ["⚠️  Could not verify website accessibility:";
                "net::ERR_NAME_NOT_RESOLVED"]
    ∈ trace (GlobalSetup.Tolerant.globalSetup Samples.local_config Samples.site_down)
  ∧ outcome (GlobalSetup.Tolerant.globalSetup Samples.local_config Samples.site_down)
    = Val ().
Proof.
  destruct (C2_navigation_failure_handling Samples.local_config
              Samples.site_down "net::ERR_NAME_NOT_RESOLVED"
              eq_refl eq_refl eq_refl) as [Htol _].
  destruct (Htol eq_refl) as (Hwarn & _ & Hret).
  split; [exact Hwarn | apply Hret; split; reflexivity].
Defined.

(** C2, as stated, fails.  With the site unreachable and everything else
    working, the strict hook throws the navigation error and logs no
    warning; the tolerant hook throws too when the storage state cannot be
    saved afterwards. *)
Lemma C2_counterexample :
  GlobalSetup.goto Samples.site_down "https://dev.analytiqa.cloud"
    = Exc "net::ERR_NAME_NOT_RESOLVED"
  ∧ run (GlobalSetup.Strict.globalSetup Samples.local_config Samples.site_down)
    = ([ GlobalSetup.Console GlobalSetup.Log
           ["🚀 Starting global setup for Qualtiva Solutions tests..."];
         GlobalSetup.Launch; GlobalSetup.NewContext; GlobalSetup.NewPage;
         GlobalSetup.Console GlobalSetup.Log
           ["📡 Checking website accessibility..."];
         GlobalSetup.Goto "https://dev.analytiqa.cloud" None;
         GlobalSetup.Console GlobalSetup.Error
           ["❌ Global setup failed:"; "net::ERR_NAME_NOT_RESOLVED"];
         GlobalSetup.Close ],
       Exc "net::ERR_NAME_NOT_RESOLVED")
  ∧ GlobalSetup.goto Samples.site_down_disk_full "https://www-dev.analytiqa.cloud/"
    = Exc "net::ERR_NAME_NOT_RESOLVED"
  ∧ outcome (GlobalSetup.Tolerant.globalSetup Samples.local_config
               Samples.site_down_disk_full)
    = Exc "ENOSPC: no space left on device".
Proof. repeat split. Qed.

(** C9: evaluation at the failing input.  The browser is launched, creating
    the context fails before the [try] block is entered, and the hook throws
    without ever calling [browser.close()].  Both hooks behave the same. *)
Theorem C9_browser_left_open_when_context_fails :
  GlobalSetup.launch Samples.context_fails = Val ()
  ∧ run (GlobalSetup.Strict.globalSetup Samples.local_config Samples.context_fails)
    = ([ GlobalSetup.Console GlobalSetup.Log
           ["🚀 Starting global setup for Qualtiva Solutions tests..."];
         GlobalSetup.Launch; GlobalSetup.NewContext ],
       Exc "browser.newContext: Target closed")
  ∧ run (GlobalSetup.Tolerant.globalSetup Samples.local_config Samples.context_fails)
    = ([ GlobalSetup.Console GlobalSetup.Log
           ["🚀 Starting global setup for Qualtiva Solutions tests..."];
         GlobalSetup.Launch; GlobalSetup.NewContext ],
       Exc "browser.newContext: Target closed")
  ∧ (GlobalSetup.Close
        ∉ trace (GlobalSetup.Strict.globalSetup Samples.local_config
                   Samples.context_fails))
  ∧ (GlobalSetup.Close
        ∉ trace (GlobalSetup.Tolerant.globalSetup Samples.local_config
                   Samples.context_fails)).
Proof.
  split; [reflexivity|]. split; [reflexivity|]. split; [reflexivity|].
  split; intros Hin; vm_compute in Hin;
    repeat (apply elem_of_cons in Hin as [Hin|Hin]; [discriminate Hin|]);
    by apply elem_of_nil in Hin.
Qed.

(** ** global-teardown.js *)

Lemma string_app_assoc (s1 s2 s3 : string) :
  (s1 +:+ s2) +:+ s3 = s1 +:+ (s2 +:+ s3).
Proof.
  induction s1 as [|c s1 IH]; [reflexivity|].
  change (String c ((s1 +:+ s2) +:+ s3) = String c (s1 +:+ (s2 +:+ s3))).
  by rewrite IH.
Qed.

Section GlobalTeardownFacts.
Import GlobalTeardown.
Variable config : Config.PlaywrightConfig.

Ltac run_teardown :=
  unfold trace, outcome, run, globalTeardown, call, when;
  unfold mbind, M_bind, foreach, bind, try_catch, emit, throw, mret, M_ret, ret.

Ltac case_world w :=
  repeat (match goal with
    | |- context [existsSync w ?p] => destruct (existsSync w p)
    | |- context [unlinkSync w ?p] => destruct (unlinkSync w p) as [[]|?]
    | |- context [writeFileSync w ?p ?d] =>
        destruct (writeFileSync w p d) as [[]|?]
    end; simpl).

(** Every failure inside the hook is caught and logged: it never throws. *)
Lemma globalTeardown_returns (w : World) :
  outcome (globalTeardown config w) = Val ().
Proof.
  run_teardown. case_world w; reflexivity.
Qed.

(** The summary step is reached unless removing the state file fails. *)
Lemma globalTeardown_writes_summary (w : World) :
  (existsSync w "global-state.json" = true →
   unlinkSync w "global-state.json" = Val ()) →
  WriteFileSync "test-results/summary.json" (JSON.stringify (summary (now w)) 2)
    ∈ trace (globalTeardown config w).
Proof.
  intros Hrm. run_teardown.
  destruct (existsSync w "global-state.json"); [rewrite Hrm by done|];
    case_world w; find_in_list.
Qed.

(** The serialized summary is the text of [SummaryFile], with the time
    stamp as its only variable part. *)
Lemma stringify_summary (testRun : string) :
  JSON.stringify (summary testRun) 2
  = SummaryFile.text (JSON.quote testRun)
      [ "chromium"; "firefox"; "webkit"; "Mobile Chrome"; "Mobile Safari";
        "iPad"; "Edge"; "Low-end Device" ]
      [ "Home Page"; "Navigation"; "Contact Forms"; "Accessibility";
        "Performance"; "Web Build Best Practices";
        "Cross-browser Compatibility"; "Mobile Responsiveness" ].
Proof.
  set (stamp := JSON.quote testRun).
  set (middle := removelast (drop 2 (SummaryFile.lines ""
         [ "chromium"; "firefox"; "webkit"; "Mobile Chrome"; "Mobile Safari";
           "iPad"; "Edge"; "Low-end Device" ]
         [ "Home Page"; "Navigation"; "Contact Forms"; "Accessibility";
           "Performance"; "Web Build Best Practices";
           "Cross-browser Compatibility"; "Mobile Responsiveness" ]))).
  transitivity
    (("{" +:+ SummaryFile.lf +:+ "  " +:+ SummaryFile.quoted "testRun" +:+ ": ")
     +:+ ((stamp +:+ ("," +:+ SummaryFile.lf +:+ SummaryFile.unlines middle))
          +:+ (SummaryFile.lf +:+ "}"))).
  { vm_compute. reflexivity. }
  rewrite (string_app_assoc stamp). vm_compute. reflexivity.
Qed.

(** C1. Whenever the teardown hook reaches the step that writes the summary,
    the file written is test-results/summary.json and its content is, byte
    for byte, the JSON text of an object whose [browsers] member is the fixed
    list of 8 profile names and whose [testCategories] member is the fixed
    list of 8 category names; nothing about the run enters the text except
    the time stamp. *)
Theorem C1_summary_lists_are_fixed (w : World) (path data : string) :
  WriteFileSync path data ∈ trace (globalTeardown config w) →
  path = "test-results/summary.json"
  ∧ data
    = SummaryFile.text (JSON.quote (now w))
        [ "chromium"; "firefox"; "webkit"; "Mobile Chrome"; "Mobile Safari";
          "iPad"; "Edge"; "Low-end Device" ]
        [ "Home Page"; "Navigation"; "Contact Forms"; "Accessibility";
          "Performance"; "Web Build Best Practices";
          "Cross-browser Compatibility"; "Mobile Responsiveness" ]
  ∧ length browsers = 8%nat ∧ length testCategories = 8%nat.
Proof.
  intros Hin.
  assert (path = "test-results/summary.json"
          ∧ data = JSON.stringify (summary (now w)) 2) as [-> ->].
  { revert Hin. run_teardown. case_world w;
      rewrite ?elem_of_cons, elem_of_nil; intros H;
      repeat (destruct H as [H|H]; try discriminate H; try done);
      by injection H. }
  split; [reflexivity|]. split; [apply stringify_summary|]. split; reflexivity.
Qed.
End GlobalTeardownFacts.

(** The file written by a teardown at the turn of the year 2025, line by
    line. *)
Lemma C1_summary_lists_are_fixed_witness :
  JSON.stringify (GlobalTeardown.summary "2025-01-01T00:00:00.000Z") 2
  = SummaryFile.unlines
      [ ["{"];
        ["  "; SummaryFile.quoted "testRun"; ": ";
         SummaryFile.quoted "2025-01-01T00:00:00.000Z"; ","];
        ["  "; SummaryFile.quoted "project"; ": ";
         SummaryFile.quoted "Qualtiva Solutions Website Tests"; ","];
        ["  "; SummaryFile.quoted "browsers"; ": ["];
        ["    "; SummaryFile.quoted "chromium"; ","];
        ["    "; SummaryFile.quoted "firefox"; ","];
        ["    "; SummaryFile.quoted "webkit"; ","];
        ["    "; SummaryFile.quoted "Mobile Chrome"; ","];
        ["    "; SummaryFile.quoted "Mobile Safari"; ","];
        ["    "; SummaryFile.quoted "iPad"; ","];
        ["    "; SummaryFile.quoted "Edge"; ","];
        ["    "; SummaryFile.quoted "Low-end Device"];
        ["  ],"];
        ["  "; SummaryFile.quoted "totalBrowsers"; ": 8,"];
        ["  "; SummaryFile.quoted "testCategories"; ": ["];
        ["    "; SummaryFile.quoted "Home Page"; ","];
        ["    "; SummaryFile.quoted "Navigation"; ","];
        ["    "; SummaryFile.quoted "Contact Forms"; ","];
        ["    "; SummaryFile.quoted "Accessibility"; ","];
        ["    "; SummaryFile.quoted "Performance"; ","];
        ["    "; SummaryFile.quoted "Web Build Best Practices"; ","];
        ["    "; SummaryFile.quoted "Cross-browser Compatibility"; ","];
        ["    "; SummaryFile.quoted "Mobile Responsiveness"];
        ["  ]"];
        ["}"] ].
Proof.
  refine (proj1 (proj2
    (C1_summary_lists_are_fixed Samples.local_config Samples.teardown_ok
       "test-results/summary.json"
       (JSON.stringify (GlobalTeardown.summary "2025-01-01T00:00:00.000Z") 2)
       _))).
  vm_compute. find_in_list.
Defined.

(** ** run.sh and run.ps1 *)

Section RunShFacts.
Import RunSh.





End RunShFacts.

Section RunShClaims.
Import RunSh.

Ltac run_sh :=
  unfold trace, outcome, run, main, check_dependencies, run_tests,
    install_dependencies, install_browsers, junit_env, report_base_url,
    base_url_line, exec, exit, when, print_status, print_success, print_error,
    print_warning, mkdir_junit;
  simpl;
  unfold mbind, M_bind, bind, emit, ask, throw, mret, M_ret, ret; simpl.







(** The [else] branch of [run_tests] is dead code: under [set -e] a failing
    npm run ends the script with npm's own status before the test. *)
Lemma run_tests_failure_status (w : World) (h : list Event) (t d : string) :
  (∀ h, status w h mkdir_junit = 0) →
  ∀ h' code, run_tests w t d h = (h', Exc code) →
  ∃ h0, code = status w h0 ["npm"; "run"; t] ∧ code ≠ 0.
Proof.
  intros Hmk h' code. unfold run_tests. run_sh.
  destruct (base_url_set w); simpl; rewrite Hmk; simpl;
    (destruct (status w _ ["npm"; "run"; t] =? 0) eqn:Hs; simpl;
     [ rewrite Hs; simpl; discriminate
     | intros [= <- <-]; eexists; split; [reflexivity|];
       by apply Z.eqb_neq in Hs ]).
Qed.


End RunShClaims.



Lemma subcommand_absent_or_empty (rest : list string) :
  RunSh.subcommand [] = "help" ∧ RunSh.subcommand ("" :: rest) = "help".
Proof. split; reflexivity. Qed.




(** The [codegen] clause declares a [local] at the top level, so it stops
    there with status 1 and never starts the code generator. *)
Lemma codegen_never_launches :
  run (RunSh.main ["codegen"] Samples.sh_ready)
  = ([ RunSh.Echo "\033[0;34m[INFO]\033[0m Checking dependencies...";
       RunSh.Echo "\033[0;32m[SUCCESS]\033[0m Dependencies check passed";
       RunSh.Stderr "local: can only be used in a function" ],
     Exc 1).
Proof. reflexivity. Qed.

(** ** scripts/aqa-post-results.ps1 *)

Section UploaderFacts.
Import AqaPostResults.
Variables (p : Params) (w : World).

Ltac run_ps :=
  unfold foreach_body, try_catch_error, invoke, library, Write_Host,
    Write_Warning, Write_Error, exit, when;
  unfold mbind, M_bind, bind, try_catch, emit, ask, throw, mret, M_ret, ret.

(** The cutoff is the clock reading minus [Hours] hours, when that is the
    ticks of a [DateTime]; otherwise its computation raises. *)
Lemma cutoff_value (c : Z) :
  cutoff p w = Val c
  ↔ c = Get_Date w [] - Hours p * TicksPerHour ∧ 0 ≤ c ≤ MaxTicks.
Proof.
  unfold cutoff, AddHours. cbv zeta.
  replace (Get_Date w [] + - Hours p * TicksPerHour)
    with (Get_Date w [] - Hours p * TicksPerHour) by lia.
  destruct (Z.leb_spec 0 (Get_Date w [] - Hours p * TicksPerHour)),
    (Z.leb_spec (Get_Date w [] - Hours p * TicksPerHour) MaxTicks); simpl;
    split; try discriminate; try (intros [-> ?]; lia).
  - intros [= <-]. lia.
  - by intros [-> _].
Qed.


(** The credential is built exactly when neither the user name nor the
    password is empty. *)
Lemma credential_built :
  can_authenticate w →
  credential w = Val {| UserName := env_value w "AQA_USER";
                        Password := env_value w "AQA_PASSWORD" |}.
Proof.
  intros [Huser Hpass]. unfold credential, ConvertTo_SecureString,
    New_PSCredential, nonempty.
  apply String.eqb_neq in Huser, Hpass. by rewrite Huser, Hpass.
Qed.

Lemma credential_refused :
  ¬ can_authenticate w → ∃ err, credential w = Exc err.
Proof.
  intros Hnot. unfold credential, ConvertTo_SecureString, New_PSCredential,
    nonempty.
  destruct (String.eqb_spec (env_value w "AQA_PASSWORD") "") as [Hp|Hp]; simpl;
    [by eexists|].
  destruct (String.eqb_spec (env_value w "AQA_USER") "") as [Hu|Hu]; simpl;
    [by eexists|].
  by destruct Hnot.
Qed.

(** One iteration of the loop, case by case.  A file older than the cutoff
    is skipped.  For any other file the credential is built first, outside
    the [try] block: when that fails the script ends there; otherwise the
    iteration never raises, and what it appends to the history is decided by
    the read of the file and the answer to the request. *)
Lemma foreach_body_cases (c : Z) (file : FileInfo) (h : list Event) :
  foreach_body p w c file h =
    if LastWriteTime file <? c then (h ++ [skip_line w file], Val ())
    else
      match credential w with
      | Exc err => (h ++ [posting_line file], Exc (Terminating err))
      | Val _ =>
          let h1 := h ++ announce p w file ++ [GetContent (FullName file)] in
          match Get_Content w h1 (FullName file) with
          | Exc err => (h1 ++ failure_lines w file err ++ [separator], Val ())
          | Val body =>
              let req := request_for p w body in
              let h2 := h1 ++ [InvokeWebRequest req] in
              match Invoke_WebRequest w h2 req with
              | Exc err => (h2 ++ failure_lines w file err ++ [separator], Val ())
              | Val resp =>
                  (h2 ++ [if (200 <=? StatusCode resp) && (StatusCode resp <? 300)
                          then success_line file (StatusCode resp)
                          else unexpected_line file (StatusCode resp)]
                      ++ response_echo resp ++ [separator], Val ())
              end
          end
      end.
Proof.
  run_ps. destruct (LastWriteTime file <? c); [reflexivity|].
  unfold credential, ConvertTo_SecureString, New_PSCredential.
  destruct (nonempty (env_value w "AQA_PASSWORD")); [|reflexivity].
  destruct (nonempty (env_value w "AQA_USER")); [|reflexivity].
  cbv zeta. unfold announce, request_for, requestParams.
  rewrite <- !app_assoc. simpl.
  destruct (Get_Content w _ _) as [body|err]; simpl.
  - rewrite <- !app_assoc. simpl.
    destruct (Invoke_WebRequest w _ _) as [resp|err]; simpl.
    + unfold response_echo, success_line, unexpected_line, separator.
      destruct ((200 <=? StatusCode resp) && (StatusCode resp <? 300));
        destruct (nonempty (Content resp)); simpl;
        rewrite <- ?app_assoc; reflexivity.
    + unfold failure_lines, separator.
      destruct (bool_decide (ResponseStatus err = Some 404)); simpl;
        rewrite <- ?app_assoc; reflexivity.
  - unfold failure_lines, separator.
    destruct (bool_decide (ResponseStatus err = Some 404)); simpl;
      rewrite <- ?app_assoc; reflexivity.
Qed.

(** With a credential, an iteration never raises. *)
Lemma foreach_body_total (c : Z) (file : FileInfo) (h : list Event) :
  can_authenticate w →
  foreach_body p w c file h = (h ++ file_events p w c h file, Val ()).
Proof.
  intros Hauth. unfold file_events. rewrite foreach_body_cases.
  rewrite (credential_built Hauth). cbv zeta.
  repeat case_match; simpl; rewrite <- ?app_assoc, drop_app_length; reflexivity.
Qed.

Lemma foreach_body_skip (c : Z) (file : FileInfo) (h : list Event) :
  LastWriteTime file < c →
  foreach_body p w c file h = (h ++ [skip_line w file], Val ()).
Proof.
  intros Hold. rewrite foreach_body_cases.
  apply Z.ltb_lt in Hold. by rewrite Hold.
Qed.

(** Without a credential, the first file that passes the age test ends the
    script, after the line that announces it. *)
Lemma foreach_body_refused (c : Z) (file : FileInfo) (h : list Event) :
  ¬ can_authenticate w → c ≤ LastWriteTime file →
  ∃ err, credential w = Exc err
         ∧ foreach_body p w c file h
           = (h ++ [posting_line file], Exc (Terminating err)).
Proof.
  intros Hnot Hnew. destruct (credential_refused Hnot) as [err Herr].
  exists err. split; [done|]. rewrite foreach_body_cases.
  apply Z.ltb_ge in Hnew. by rewrite Hnew, Herr.
Qed.

Lemma file_events_skip (c : Z) (file : FileInfo) (h : list Event) :
  LastWriteTime file < c → file_events p w c h file = [skip_line w file].
Proof.
  intros Hold. unfold file_events. rewrite (foreach_body_skip _ _ _ Hold).
  apply drop_app_length.
Qed.

Lemma file_events_refused (c : Z) (file : FileInfo) (h : list Event) :
  ¬ can_authenticate w → c ≤ LastWriteTime file →
  file_events p w c h file = [posting_line file].
Proof.
  intros Hnot Hnew. unfold file_events.
  destruct (foreach_body_refused c file h Hnot Hnew) as (err & _ & ->).
  apply drop_app_length.
Qed.

Lemma file_events_read_failure (c : Z) (file : FileInfo) (h : list Event)
    (err : ErrorRecord) :
  can_authenticate w →
  c ≤ LastWriteTime file →
  Get_Content w (h ++ announce p w file ++ [GetContent (FullName file)])
    (FullName file) = Exc err →
  file_events p w c h file
  = announce p w file ++ [GetContent (FullName file)]
    ++ failure_lines w file err ++ [separator].
Proof.
  intros Hauth Hnew Hread. unfold file_events. rewrite foreach_body_cases.
  apply Z.ltb_ge in Hnew. rewrite Hnew, (credential_built Hauth). cbv zeta.
  rewrite Hread. simpl.
  rewrite <- !app_assoc. by rewrite drop_app_length.
Qed.


Lemma file_events_response (c : Z) (file : FileInfo) (h : list Event)
    (body : string) (resp : Response) :
  can_authenticate w →
  c ≤ LastWriteTime file →
  let h1 := h ++ announce p w file ++ [GetContent (FullName file)] in
  let req := request_for p w body in
  Get_Content w h1 (FullName file) = Val body →
  Invoke_WebRequest w (h1 ++ [InvokeWebRequest req]) req = Val resp →
  file_events p w c h file
  = announce p w file ++ [GetContent (FullName file); InvokeWebRequest req]
    ++ [if (200 <=? StatusCode resp) && (StatusCode resp <? 300)
        then success_line file (StatusCode resp)
        else unexpected_line file (StatusCode resp)]
    ++ response_echo resp ++ [separator].
Proof.
  intros Hauth Hnew h1 req Hread Hpost. unfold file_events.
  rewrite foreach_body_cases.
  apply Z.ltb_ge in Hnew. rewrite Hnew, (credential_built Hauth). cbv zeta.
  fold h1. rewrite Hread. fold req. rewrite Hpost. unfold h1. simpl.
  rewrite <- !app_assoc. by rewrite drop_app_length.
Qed.

(** With a credential the loop never raises, and its trace is the segments
    of its files in order. *)
Lemma loop_run (c : Z) (fs : list FileInfo) (h : list Event) :
  can_authenticate w →
  foreach fs (foreach_body p w c) h = (h ++ concat (segments p w c h fs), Val ()).
Proof.
  intros Hauth. revert h. induction fs as [|file fs IH]; intros h; simpl.
  - by rewrite app_nil_r.
  - unfold bind. rewrite (foreach_body_total _ _ _ Hauth), IH.
    by rewrite <- app_assoc.
Qed.

(** Without a credential the loop skips the old files and ends the script at
    the first file that is not old. *)
Lemma loop_refused (c : Z) (fs : list FileInfo) (h : list Event) :
  ¬ can_authenticate w →
  ∃ err, credential w = Exc err
         ∧ foreach fs (foreach_body p w c) h
           = (h ++ refused_events w c fs,
              if all_old c fs then Val () else Exc (Terminating err)).
Proof.
  intros Hnot. destruct (credential_refused Hnot) as [err Herr].
  exists err. split; [done|].
  revert h. induction fs as [|file fs IH]; intros h; simpl.
  - by rewrite app_nil_r.
  - unfold bind. rewrite foreach_body_cases, Herr.
    destruct (LastWriteTime file <? c); simpl; [|done].
    rewrite IH. by rewrite <- app_assoc.
Qed.

Lemma all_old_spec (c : Z) (fs : list FileInfo) :
  all_old c fs = true ↔ ∀ file, file ∈ fs → LastWriteTime file < c.
Proof.
  unfold all_old. induction fs as [|file fs IH]; simpl.
  - split; [|done]. by intros _ file ?%elem_of_nil.
  - rewrite andb_true_iff, IH, Z.ltb_lt. split.
    + intros [Hfile Hrest] file' [->|Hin]%elem_of_cons; auto.
    + intros Hall. split; [apply Hall; left|].
      intros file' Hin. apply Hall. by right.
Qed.

Lemma all_old_false (c : Z) (fs : list FileInfo) :
  all_old c fs = false ↔ ∃ file, file ∈ fs ∧ c ≤ LastWriteTime file.
Proof.
  unfold all_old. induction fs as [|file fs IH]; simpl.
  - split; [discriminate|]. by intros (file & ?%elem_of_nil & _).
  - rewrite andb_false_iff, IH, Z.ltb_ge. split.
    + intros [Hfile|(file' & Hin & Hnew)].
      * exists file. split; [left | done].
      * exists file'. split; [by right | done].
    + intros (file' & [->|Hin]%elem_of_cons & Hnew); [by left|].
      right. by exists file'.
Qed.

Lemma segments_length (c : Z) (fs : list FileInfo) (h : list Event) :
  length (segments p w c h fs) = length fs.
Proof. revert h. induction fs as [|file fs IH]; intros h; simpl; [done|]. by rewrite IH. Qed.

(** A property that holds of every iteration, from whatever history, holds
    of every file and its segment. *)
Lemma segments_Forall2 (c : Z) (P : FileInfo → list Event → Prop) :
  (∀ file h, P file (file_events p w c h file)) →
  ∀ fs h, Forall2 P fs (segments p w c h fs).
Proof.
  intros HP fs. induction fs as [|file fs IH]; intros h; simpl; constructor; auto.
Qed.

(** The segment of the file at position [i] is what its iteration adds to
    the history made of [h] and of the segments before it. *)
Lemma segments_lookup (c : Z) (fs : list FileInfo) (h : list Event)
    (i : nat) (file : FileInfo) :
  fs !! i = Some file →
  segments p w c h fs !! i
  = Some (file_events p w c (h ++ concat (take i (segments p w c h fs))) file).
Proof.
  revert h i. induction fs as [|file0 fs IH]; intros h i Hfile; [done|].
  destruct i as [|i]; simpl in *.
  - injection Hfile as ->. by rewrite app_nil_r.
  - rewrite (IH _ _ Hfile). by rewrite <- app_assoc.
Qed.

Ltac run_script :=
  unfold run, script, library, Write_Host, Write_Warning, Write_Error, exit, when;
  unfold mbind, M_bind, bind, emit, ask, throw, mret, M_ret, ret;
  fold (missing w).

(** The ways a run can go. *)
Lemma script_missing_variables :
  missing w ≠ [] →
  let msg := "Missing required environment variables: " +:+ join ", " (missing w) in
  run (script p w)
  = ([WriteError msg], Exc (Terminating {| Message := msg; ResponseStatus := None |})).
Proof.
  intros Hmiss. run_script.
  rewrite bool_decide_eq_true_2; [reflexivity|].
  destruct (missing w); [done | simpl; lia].
Qed.

Lemma script_no_directory :
  missing w = [] → Test_Path_Container w (ResultsDir p) = false →
  let msg := "Results directory not found: " +:+ ResultsDir p in
  run (script p w)
  = ([WriteError msg], Exc (Terminating {| Message := msg; ResponseStatus := None |})).
Proof.
  intros Hmiss Hdir. run_script. rewrite Hmiss, Hdir. reflexivity.
Qed.

Lemma script_no_cutoff (err : ErrorRecord) :
  ready p w → cutoff p w = Exc err →
  run (script p w) = ([], Exc (Terminating err)).
Proof.
  intros [Hmiss Hdir] Hcut. run_script. rewrite Hmiss, Hdir. simpl.
  fold (cutoff p w). by rewrite Hcut.
Qed.

Lemma script_no_files (c : Z) :
  ready p w → cutoff p w = Val c → files p w = [] →
  run (script p w)
  = (preamble p w c
       ++ [WriteWarning ("No files found matching pattern: " +:+ pattern p w)],
     Exc (Exit 0)).
Proof.
  intros [Hmiss Hdir] Hcut Hfiles. run_script. rewrite Hmiss, Hdir. simpl.
  fold (cutoff p w). rewrite Hcut. simpl.
  fold (pattern p w). fold (files p w). rewrite Hfiles. reflexivity.
Qed.

Lemma script_loop (c : Z) :
  ready p w → cutoff p w = Val c → files p w ≠ [] → can_authenticate w →
  run (script p w)
  = (preamble p w c
       ++ concat (segments p w c (preamble p w c) (files p w))
       ++ [done_line],
     Val ()).
Proof.
  intros [Hmiss Hdir] Hcut Hfiles Hauth. run_script. rewrite Hmiss, Hdir. simpl.
  fold (cutoff p w). rewrite Hcut. simpl.
  fold (pattern p w). fold (files p w).
  rewrite bool_decide_eq_false_2 by done. simpl.
  rewrite (loop_run _ _ _ Hauth). by rewrite <- app_assoc.
Qed.

Lemma script_loop_refused (c : Z) :
  ready p w → cutoff p w = Val c → files p w ≠ [] → ¬ can_authenticate w →
  ∃ err, credential w = Exc err
         ∧ run (script p w)
           = if all_old c (files p w)
             then (preamble p w c ++ refused_events w c (files p w) ++ [done_line],
                   Val ())
             else (preamble p w c ++ refused_events w c (files p w),
                   Exc (Terminating err)).
Proof.
  intros [Hmiss Hdir] Hcut Hfiles Hnot.
  destruct (loop_refused c (files p w) (preamble p w c) Hnot) as (err & Herr & Hloop).
  exists err. split; [done|].
  run_script. rewrite Hmiss, Hdir. simpl.
  fold (cutoff p w). rewrite Hcut. simpl.
  fold (pattern p w). fold (files p w).
  rewrite bool_decide_eq_false_2 by done. simpl.
  change ([WriteHost ("Send to " +:+ env_value w "AQA_ENDPOINT") Cyan;
           WriteHost ("Using file pattern: " +:+ FileFilter p) Gray;
           WriteHost ("Using test engine: " +:+ Engine p) Gray;
           WriteHost ("Using tags: " +:+ Tags p) Gray;
           WriteHost ("Processing files modified after: " +:+ ToString w c
                      +:+ " (" +:+ pretty (Hours p) +:+ " hours ago)") Gray;
           WriteHost "" NoColor; GetChildItem (pattern p w)])
    with (preamble p w c).
  rewrite Hloop. destruct (all_old c (files p w)); [|done].
  by rewrite <- app_assoc.
Qed.

(** Once the loop is entered with a credential, the run completes and the
    exit code is 0. *)
Lemma script_loop_exit_code (c : Z) :
  ready p w → cutoff p w = Val c → files p w ≠ [] → can_authenticate w →
  exit_code p w = 0.
Proof.
  intros Hready Hcut Hfiles Hauth. unfold exit_code, outcome.
  by rewrite (script_loop c Hready Hcut Hfiles Hauth).
Qed.

Lemma requests_app (xs ys : list Event) :
  requests (xs ++ ys) = requests xs ++ requests ys.
Proof. unfold requests. apply omap_app. Qed.

Lemma requests_announce (file : FileInfo) : requests (announce p w file) = [].
Proof. reflexivity. Qed.

Lemma requests_failure_lines (file : FileInfo) (err : ErrorRecord) :
  requests (failure_lines w file err) = [].
Proof. unfold failure_lines. by case_bool_decide. Qed.

Lemma requests_response_echo (resp : Response) : requests (response_echo resp) = [].
Proof. unfold response_echo. by destruct (nonempty _). Qed.

Lemma requests_preamble (c : Z) : requests (preamble p w c) = [].
Proof. reflexivity. Qed.

Lemma requests_refused_events (c : Z) (fs : list FileInfo) :
  requests (refused_events w c fs) = [].
Proof.
  induction fs as [|file fs IH]; [done|]. simpl.
  by destruct (LastWriteTime file <? c).
Qed.

(** Nothing is read when the credential cannot be built. *)
Lemma refused_events_no_read (c : Z) (fs : list FileInfo) (path : string) :
  GetContent path ∉ refused_events w c fs.
Proof.
  induction fs as [|file fs IH]; simpl; [apply not_elem_of_nil|].
  destruct (LastWriteTime file <? c).
  - rewrite not_elem_of_cons. split; [discriminate | done].
  - rewrite not_elem_of_cons. split; [discriminate | apply not_elem_of_nil].
Qed.

Lemma refused_events_no_done (c : Z) (fs : list FileInfo) :
  done_line ∉ refused_events w c fs.
Proof.
  induction fs as [|file fs IH]; simpl; [apply not_elem_of_nil|].
  destruct (LastWriteTime file <? c).
  - rewrite not_elem_of_cons. split; [discriminate | done].
  - rewrite not_elem_of_cons. split; [discriminate | apply not_elem_of_nil].
Qed.

(** The requests of one iteration: none for a stale or unreadable file, one
    for a file that was read. *)
Lemma requests_file_events (c : Z) (h : list Event) (file : FileInfo) :
  can_authenticate w →
  requests (file_events p w c h file)
  = if LastWriteTime file <? c then []
    else match Get_Content w (h ++ announce p w file ++ [GetContent (FullName file)])
                 (FullName file) with
         | Val body => [request_for p w body]
         | Exc _ => []
         end.
Proof.
  intros Hauth. unfold file_events. rewrite foreach_body_cases.
  rewrite (credential_built Hauth). cbv zeta.
  repeat case_match; cbn [fst];
    rewrite <- ?app_assoc, drop_app_length, ?requests_app,
      ?requests_announce, ?requests_failure_lines, ?requests_response_echo;
    reflexivity.
Qed.

Lemma elem_of_requests (evs : list Event) (req : Request) :
  InvokeWebRequest req ∈ evs ↔ req ∈ requests evs.
Proof.
  unfold requests. rewrite list_elem_of_omap. split.
  - intros Hin. by exists (InvokeWebRequest req).
  - intros (ev & Hin & Hev). destruct ev; try discriminate. by injection Hev as ->.
Qed.

(** A file that passes the age test is announced and read. *)
Lemma file_events_recent (c : Z) (h : list Event) (file : FileInfo) :
  can_authenticate w →
  c ≤ LastWriteTime file →
  ∃ rest, file_events p w c h file
          = announce p w file ++ GetContent (FullName file) :: rest ++ [separator].
Proof.
  intros Hauth Hnew. unfold file_events. rewrite foreach_body_cases.
  apply Z.ltb_ge in Hnew. rewrite Hnew, (credential_built Hauth). cbv zeta.
  destruct (Get_Content w _ _) as [body|err].
  - destruct (Invoke_WebRequest w _ _) as [resp|err]; cbn [fst];
      rewrite <- !app_assoc, drop_app_length.
    + by exists ([InvokeWebRequest (request_for p w body)]
                 ++ [if (200 <=? StatusCode resp) && (StatusCode resp <? 300)
                     then success_line file (StatusCode resp)
                     else unexpected_line file (StatusCode resp)]
                 ++ response_echo resp).
    + exists ([InvokeWebRequest (request_for p w body)] ++ failure_lines w file err).
      by rewrite <- !app_assoc.
  - cbn [fst]. rewrite <- !app_assoc, drop_app_length.
    by exists (failure_lines w file err).
Qed.

(** A file that passes the age test is never logged as skipped. *)
Lemma file_events_not_skipped (c : Z) (h : list Event) (file : FileInfo) :
  c ≤ LastWriteTime file → file_events p w c h file ≠ [skip_line w file].
Proof.
  intros Hnew. destruct (decide (can_authenticate w)) as [Hauth|Hnot].
  - destruct (file_events_recent _ h _ Hauth Hnew) as [rest ->]. discriminate.
  - rewrite (file_events_refused _ _ h Hnot Hnew). discriminate.
Qed.

(** Every request of the loop is the request built for the content read
    from one of its files. *)
Lemma segments_request (c : Z) (fs : list FileInfo) (h : list Event) (req : Request) :
  can_authenticate w →
  InvokeWebRequest req ∈ concat (segments p w c h fs) →
  ∃ file h' body,
    file ∈ fs ∧ Get_Content w h' (FullName file) = Val body
    ∧ req = request_for p w body.
Proof.
  intros Hauth. revert h. induction fs as [|file fs IH]; intros h; simpl.
  - by intros ?%elem_of_nil.
  - rewrite elem_of_app. intros [Hin|Hin].
    + apply elem_of_requests in Hin. rewrite requests_file_events in Hin by done.
      destruct (LastWriteTime file <? c); [by apply elem_of_nil in Hin|].
      destruct (Get_Content w _ _) as [body|err] eqn:Hread;
        [|by apply elem_of_nil in Hin].
      apply elem_of_cons in Hin as [->|Hin]; [|by apply elem_of_nil in Hin].
      exists file, (h ++ announce p w file ++ [GetContent (FullName file)]), body.
      split; [apply list_elem_of_here | done].
    + destruct (IH _ Hin) as (file' & h' & body & Hfile & Hread & Hreq).
      exists file', h', body. split; [by apply list_elem_of_further | done].
Qed.

(** A request is only ever sent by a run that entered the loop with a
    credential; it is the request built for the content read from one of
    the matched files. *)
Lemma script_request_shape (req : Request) :
  InvokeWebRequest req ∈ trace (script p w) →
  ready p w ∧ can_authenticate w ∧ files p w ≠ []
  ∧ (∃ c, cutoff p w = Val c)
  ∧ ∃ file h body, file ∈ files p w
                   ∧ Get_Content w h (FullName file) = Val body
                   ∧ req = request_for p w body.
Proof.
  intros Hin. unfold trace in Hin.
  destruct (decide (missing w = [])) as [Hmiss|Hmiss].
  2: { rewrite (script_missing_variables Hmiss) in Hin. simpl in Hin.
       apply elem_of_cons in Hin as [Hin|Hin]; [discriminate|].
       by apply elem_of_nil in Hin. }
  destruct (Test_Path_Container w (ResultsDir p)) eqn:Hdir.
  2: { rewrite (script_no_directory Hmiss Hdir) in Hin. simpl in Hin.
       apply elem_of_cons in Hin as [Hin|Hin]; [discriminate|].
       by apply elem_of_nil in Hin. }
  assert (ready p w) as Hready by done.
  destruct (cutoff p w) as [c|err] eqn:Hcut.
  2: { rewrite (script_no_cutoff err Hready Hcut) in Hin.
       by apply elem_of_nil in Hin. }
  assert (∀ ev, ev ∈ preamble p w c → ev ≠ InvokeWebRequest req) as Hpre.
  { unfold preamble. intros ev Hev.
    repeat (apply elem_of_cons in Hev as [->|Hev]; [discriminate|]).
    by apply elem_of_nil in Hev. }
  destruct (decide (files p w = [])) as [Hnone|Hsome].
  { rewrite (script_no_files c Hready Hcut Hnone) in Hin. cbn [fst] in Hin.
    apply elem_of_app in Hin as [Hin|Hin]; [by destruct (Hpre _ Hin)|].
    apply elem_of_cons in Hin as [Hin|Hin]; [discriminate|].
    by apply elem_of_nil in Hin. }
  destruct (decide (can_authenticate w)) as [Hauth|Hnot].
  2: { destruct (script_loop_refused c Hready Hcut Hsome Hnot) as (err & _ & Hrun).
       rewrite Hrun in Hin. apply elem_of_requests in Hin.
       destruct (all_old c (files p w)); cbn [fst] in Hin;
         rewrite !requests_app, requests_preamble, requests_refused_events in Hin;
         by apply elem_of_nil in Hin. }
  split; [done|]. split; [done|]. split; [done|]. split; [by exists c|].
  rewrite (script_loop c Hready Hcut Hsome Hauth) in Hin. cbn [fst] in Hin.
  apply elem_of_app in Hin as [Hin|Hin]; [by destruct (Hpre _ Hin)|].
  apply elem_of_app in Hin as [Hin|Hin].
  2: { apply elem_of_cons in Hin as [Hin|Hin]; [discriminate|].
       by apply elem_of_nil in Hin. }
  by apply (segments_request _ _ _ _ Hauth) in Hin.
Qed.



(** C3 (as amended). The cutoff is the clock reading taken once before the
    loop minus [Hours] hours, 72 by default.  In a run that reaches the loop
    with a user name and a password that are not empty, every matched file
    has its own segment of the trace; the file is skipped (the segment is the
    single "Skipping" line: the file is neither read nor posted) if and only
    if its last write time is strictly earlier than the cutoff; a file that is
    not skipped is read, and it is posted, once, exactly when the read
    succeeds.  With an empty user name or password no request is sent for
    any file. *)
Theorem C3_skip_iff_older_than_cutoff (c : Z) :
  ready p w → cutoff p w = Val c → files p w ≠ [] →
  c = Get_Date w [] - Hours p * TicksPerHour
  ∧ Hours defaults = 72
  ∧ (can_authenticate w →
     ∃ segs,
       trace (script p w) = preamble p w c ++ concat segs ++ [done_line]
       ∧ length segs = length (files p w)
       ∧ ∀ i file seg,
           files p w !! i = Some file → segs !! i = Some seg →
           let h := preamble p w c ++ concat (take i segs) in
           (seg = [skip_line w file] ↔ LastWriteTime file < c)
           ∧ (LastWriteTime file < c →
                requests seg = [] ∧ GetContent (FullName file) ∉ seg)
           ∧ (c ≤ LastWriteTime file →
                GetContent (FullName file) ∈ seg
                ∧ requests seg
                  = match Get_Content w
                            (h ++ announce p w file ++ [GetContent (FullName file)])
                            (FullName file) with
                    | Val body => [request_for p w body]
                    | Exc _ => []
                    end))
  ∧ (¬ can_authenticate w → requests (trace (script p w)) = []).
Proof.
  intros Hready Hcut Hfiles.
  split; [by apply cutoff_value in Hcut as [-> _]|]. split; [reflexivity|].
  split.
  - intros Hauth.
    exists (segments p w c (preamble p w c) (files p w)). split.
    { unfold trace. by rewrite (script_loop c Hready Hcut Hfiles Hauth). }
    split; [apply segments_length|].
    intros i file seg Hfile Hseg h.
    assert (seg = file_events p w c h file) as ->.
    { rewrite (segments_lookup _ _ _ _ _ Hfile) in Hseg. unfold h. congruence. }
    split; [|split].
    + split.
      * intros Hskip.
        destruct (Z.lt_ge_cases (LastWriteTime file) c) as [Hold|Hnew]; [done|].
        by destruct (file_events_not_skipped c h file Hnew).
      * apply file_events_skip.
    + intros Hold. rewrite (file_events_skip _ _ _ Hold). split; [done|].
      rewrite not_elem_of_cons. split; [discriminate | apply not_elem_of_nil].
    + intros Hnew. split.
      * destruct (file_events_recent _ h _ Hauth Hnew) as [rest ->].
        unfold announce. find_in_list.
      * rewrite requests_file_events by done.
        apply Z.ltb_ge in Hnew. by rewrite Hnew.
  - intros Hnot.
    destruct (script_loop_refused c Hready Hcut Hfiles Hnot) as (err & _ & Hrun).
    unfold trace. rewrite Hrun.
    destruct (all_old c (files p w)); cbn [fst];
      by rewrite !requests_app, requests_preamble, requests_refused_events.
Qed.

(** C4. When a response arrives without an exception (which needs a
    credential, a file that passed the age test and its content), the post is
    logged as a success exactly when the status code is in [200, 300) and as
    "unexpected" otherwise; in neither case is a failure line logged, and the
    iteration ends normally.  A run in which a request was sent ends with
    exit code 0, whatever the responses were. *)
Theorem C4_status_classification
    (c : Z) (h : list Event) (file : FileInfo) (body : string) (resp : Response) :
  can_authenticate w →
  c ≤ LastWriteTime file →
  let h1 := h ++ announce p w file ++ [GetContent (FullName file)] in
  let req := request_for p w body in
  Get_Content w h1 (FullName file) = Val body →
  Invoke_WebRequest w (h1 ++ [InvokeWebRequest req]) req = Val resp →
  ∃ verdict,
    foreach_body p w c file h
    = (h1 ++ [InvokeWebRequest req; verdict] ++ response_echo resp ++ [separator],
       Val ())
    ∧ (verdict = success_line file (StatusCode resp)
       ↔ 200 ≤ StatusCode resp < 300)
    ∧ (verdict = unexpected_line file (StatusCode resp)
       ↔ ¬ (200 ≤ StatusCode resp < 300))
    ∧ (∀ text, WriteHost text Red ∉ file_events p w c h file)
    ∧ (∀ sent, InvokeWebRequest sent ∈ trace (script p w) → exit_code p w = 0).
Proof.
  intros Hauth Hnew h1 req Hread Hpost.
  exists (if (200 <=? StatusCode resp) && (StatusCode resp <? 300)
          then success_line file (StatusCode resp)
          else unexpected_line file (StatusCode resp)).
  split; [|split; [|split; [|split]]].
  - rewrite foreach_body_cases. apply Z.ltb_ge in Hnew.
    rewrite Hnew, (credential_built Hauth). cbv zeta.
    fold h1. rewrite Hread. fold req. rewrite Hpost.
    by rewrite <- !app_assoc.
  - destruct (Z.leb_spec 200 (StatusCode resp)), (Z.ltb_spec (StatusCode resp) 300);
      simpl; split; try done; try lia; unfold success_line, unexpected_line;
      discriminate.
  - destruct (Z.leb_spec 200 (StatusCode resp)), (Z.ltb_spec (StatusCode resp) 300);
      simpl; split; try done; try lia; unfold success_line, unexpected_line;
      discriminate.
  - intros text. rewrite (file_events_response _ _ _ _ _ Hauth Hnew Hread Hpost).
    unfold announce, response_echo, success_line, unexpected_line, separator.
    intros Hin. repeat case_match; simpl in Hin;
      repeat (apply elem_of_cons in Hin as [Hin|Hin]; [discriminate Hin|]);
      by apply elem_of_nil in Hin.
  - intros sent Hsent.
    destruct (script_request_shape sent Hsent)
      as (Hready & _ & Hfiles & [c' Hcut] & _).
    by apply (script_loop_exit_code c').
Qed.

(** C5 (as amended). A run that enters the loop with a user name and a
    password that are not empty, or with every file older than the cutoff,
    completes: it returns normally with exit code 0 and "Done." as its last
    line.  With a credential every file has its own segment of the trace,
    either the "Skipping" line or an announcement closed by the separator;
    when the request for a file raises, the error is caught, the failure is
    logged for that file, and the iteration ends normally so that the loop
    goes on with the next file.  With an empty user name or password the
    script is ended by the error of the credential at the first file that is
    not older than the cutoff: it reads and posts nothing, never prints
    "Done." and exits with code 1. *)
Theorem C5_http_failure_does_not_abort (c : Z) :
  ready p w → cutoff p w = Val c → files p w ≠ [] →
  (can_authenticate w ∨ (∀ file, file ∈ files p w → LastWriteTime file < c) →
     outcome (script p w) = Val ()
     ∧ exit_code p w = 0
     ∧ last (trace (script p w)) = Some done_line)
  ∧ (can_authenticate w →
     (∃ segs,
        trace (script p w) = preamble p w c ++ concat segs ++ [done_line]
        ∧ Forall2 (λ file seg,
             seg = [skip_line w file]
             ∨ ∃ middle, seg = announce p w file ++ middle ++ [separator])
           (files p w) segs)
     ∧ (∀ c h file body err,
          c ≤ LastWriteTime file →
          let h1 := h ++ announce p w file ++ [GetContent (FullName file)] in
          let req := request_for p w body in
          Get_Content w h1 (FullName file) = Val body →
          Invoke_WebRequest w (h1 ++ [InvokeWebRequest req]) req = Exc err →
          foreach_body p w c file h
          = (h1 ++ [InvokeWebRequest req] ++ failure_lines w file err ++ [separator],
             Val ())))
  ∧ (¬ can_authenticate w →
     (∃ file, file ∈ files p w ∧ c ≤ LastWriteTime file) →
     (∃ err, credential w = Exc err
             ∧ outcome (script p w) = Exc (Terminating err))
     ∧ exit_code p w = 1
     ∧ (done_line ∉ trace (script p w))
     ∧ requests (trace (script p w)) = []
     ∧ ∀ path, GetContent path ∉ trace (script p w)).
Proof.
  intros Hready Hcut Hfiles.
  assert (∀ ev, ev ∈ preamble p w c → ∃ text color, ev = WriteHost text color
            ∧ color ≠ Green ∨ ∃ pat, ev = GetChildItem pat) as Hpre.
  { unfold preamble. intros ev Hev.
    repeat (apply elem_of_cons in Hev as [->|Hev];
      [first [by eexists _, _; left | by eexists "", NoColor; right; eexists]|]).
    by apply elem_of_nil in Hev. }
  split; [|split].
  - intros Hcase.
    destruct (decide (can_authenticate w)) as [Hauth|Hnot].
    + pose proof (script_loop c Hready Hcut Hfiles Hauth) as Hrun.
      split; [by unfold outcome; rewrite Hrun|].
      split; [by apply (script_loop_exit_code c)|].
      unfold trace. rewrite Hrun. cbn [fst]. by rewrite app_assoc, last_snoc.
    + destruct Hcase as [Hauth|Hold]; [done|].
      apply all_old_spec in Hold.
      destruct (script_loop_refused c Hready Hcut Hfiles Hnot) as (err & _ & Hrun).
      rewrite Hold in Hrun. unfold outcome, exit_code, outcome, trace.
      rewrite Hrun. cbn [fst snd]. split; [done|]. split; [done|].
      by rewrite app_assoc, last_snoc.
  - intros Hauth. pose proof (script_loop c Hready Hcut Hfiles Hauth) as Hrun.
    split.
    + eexists. split; [unfold trace; by rewrite Hrun|].
      apply segments_Forall2. intros file h.
      destruct (Z.lt_ge_cases (LastWriteTime file) c) as [Hold|Hnew].
      * left. by apply file_events_skip.
      * right. destruct (file_events_recent _ h _ Hauth Hnew) as [rest ->].
        by exists (GetContent (FullName file) :: rest).
    + intros c' h file body err Hnew h1 req Hread Hpost.
      rewrite foreach_body_cases. apply Z.ltb_ge in Hnew.
      rewrite Hnew, (credential_built Hauth). cbv zeta.
      fold h1. rewrite Hread. fold req. rewrite Hpost.
      by rewrite <- !app_assoc.
  - intros Hnot Hnew. apply all_old_false in Hnew.
    destruct (script_loop_refused c Hready Hcut Hfiles Hnot) as (err & Herr & Hrun).
    rewrite Hnew in Hrun. unfold outcome, exit_code, outcome, trace.
    rewrite Hrun. cbn [fst snd].
    split; [by exists err|]. split; [done|]. split; [|split].
    + rewrite not_elem_of_app. split; [|apply refused_events_no_done].
      intros Hin. destruct (Hpre _ Hin) as (text & color & [[Hev Hcolor]|[pat Hev]]);
        unfold done_line in Hev; [|discriminate Hev].
      injection Hev as _ <-. done.
    + by rewrite requests_app, requests_preamble, requests_refused_events.
    + intros path. rewrite not_elem_of_app. split; [|apply refused_events_no_read].
      intros Hin. destruct (Hpre _ Hin) as (text & color & [[Hev _]|[pat Hev]]);
        discriminate Hev.
Qed.


End UploaderFacts.

(** *** The theorems at sample runs *)

Section UploaderSamples.
Import AqaPostResults UploadSamples UploadCases.

Lemma flaky_server_ready :
  ready defaults flaky_server.
Proof. split; reflexivity. Qed.

Lemma flaky_server_cutoff :
  cutoff defaults flaky_server = Val (hour 928).
Proof. reflexivity. Qed.

Lemma flaky_server_authenticates :
  can_authenticate flaky_server.
Proof. split; discriminate. Qed.

(** The run against the flaky server sends the request built for the first
    file. *)
Lemma flaky_server_request :
  InvokeWebRequest (request_for defaults flaky_server "<testsuites/>")
    ∈ trace (script defaults flaky_server).
Proof.
  unfold trace.
  rewrite (script_loop _ _ (hour 928) flaky_server_ready flaky_server_cutoff)
    by (discriminate || apply flaky_server_authenticates).
  cbn [fst]. apply elem_of_app. right. apply elem_of_app. left.
  change (files defaults flaky_server)
    with [fresh_report; stale_report; second_report].
  cbn [segments concat]. apply elem_of_app. left.
  rewrite (file_events_response _ _ _ _ _ "<testsuites/>"
             {| StatusCode := 201; Content := "stored" |});
    [| apply flaky_server_authenticates | discriminate | reflexivity | reflexivity].
  apply elem_of_app. right. find_in_list.
Qed.

Lemma C3_skip_iff_older_than_cutoff_witness :
  hour 928 = Get_Date flaky_server [] - Hours defaults * TicksPerHour
  ∧ Hours defaults = 72
  ∧ LastWriteTime stale_report < hour 928 ≤ LastWriteTime second_report.
Proof.
  destruct (C3_skip_iff_older_than_cutoff defaults flaky_server (hour 928))
    as (Hcutoff & Hdefault & _).
  - split; reflexivity.
  - reflexivity.
  - discriminate.
  - split; [exact Hcutoff|]. split; [exact Hdefault|].
    vm_compute. split; [reflexivity | discriminate].
Defined.

(** C3, as stated, fails from right to left.  The one matched file is not
    older than the cutoff, but it cannot be read: no request is sent for it. *)
Lemma C3_counterexample :
  ready defaults locked_file
  ∧ cutoff defaults locked_file = Val (hour 928)
  ∧ files defaults locked_file = [fresh_report]
  ∧ hour 928 ≤ LastWriteTime fresh_report
  ∧ can_authenticate locked_file
  ∧ requests (trace (script defaults locked_file)) = [].
Proof.
  split; [split; reflexivity|]. split; [reflexivity|]. split; [reflexivity|].
  split; [discriminate|]. split; [split; discriminate|]. reflexivity.
Qed.

Lemma C4_status_classification_witness :
  ∃ verdict,
    foreach_body defaults odd_server 0 fresh_report []
    = (announce defaults odd_server fresh_report
         ++ [ GetContent (FullName fresh_report);
              InvokeWebRequest (request_for defaults odd_server "<testsuites/>");
              verdict;
              separator ],
       Val ())
    ∧ verdict = unexpected_line fresh_report 302.
Proof.
  destruct (C4_status_classification defaults odd_server
              0 [] fresh_report "<testsuites/>"
              {| StatusCode := 302; Content := "" |})
    as (verdict & Hrun & _ & Hunexpected & _).
  - split; discriminate.
  - discriminate.
  - reflexivity.
  - reflexivity.
  - exists verdict. split; [exact Hrun|].
    apply Hunexpected. simpl. lia.
Defined.

Lemma C5_http_failure_does_not_abort_witness :
  outcome (script defaults flaky_server)
  = Val ()
  ∧ last (trace (script defaults
                   flaky_server))
    = Some done_line.
Proof.
  destruct (C5_http_failure_does_not_abort defaults
              flaky_server (hour 928)) as (Hdone & _).
  - split; reflexivity.
  - reflexivity.
  - discriminate.
  - destruct Hdone as (Hout & _ & Hlast).
    + left. split; discriminate.
    + split; [exact Hout | exact Hlast].
Defined.

(** C5, as stated, fails.  With every variable set, the password being the
    empty string, the run enters the loop and is ended by the error of the
    credential at the first file: it sends nothing, exits with code 1 and
    never prints "Done." *)
Lemma C5_counterexample :
  ready defaults empty_password
  ∧ files defaults empty_password = [fresh_report]
  ∧ run (script defaults empty_password)
    = (preamble defaults empty_password (hour 928) ++ [posting_line fresh_report],
       Exc (Terminating (EmptyArgument "String")))
  ∧ exit_code defaults empty_password = 1
  ∧ last (trace (script defaults empty_password)) ≠ Some done_line.
Proof.
  split; [split; reflexivity|]. split; [reflexivity|]. split; [reflexivity|].
  split; [reflexivity|]. discriminate.
Qed.




(** The verdict lines of a run against the flaky server: the first file is
    posted and accepted, the stale one is skipped, the post of the third
    fails with 500, and the run still ends with "Done." *)
Lemma flaky_server_run :
  omap (λ ev, match ev with
              | WriteHost text Green => Some (text, Green)
              | WriteHost text Red => Some (text, Red)
              | WriteHost text DarkGray =>
                  if String.prefix "Skipping" text then Some (text, DarkGray)
                  else None
              | _ => None
              end)
       (trace (script defaults flaky_server))
  = [ ("Successfully posted: junit-results.xml (HTTP 201)", Green);
      ("Skipping old-results.xml (modified: 32400000000000)", DarkGray);
      ("Failed to post api-results.xml (HTTP 500)", Red);
      ("Error: Response status code does not indicate success: 500", Red);
      ("Done.", Green) ].
Proof. vm_compute. reflexivity. Qed.

(** With a window of twenty million hours the cutoff would fall before the
    year 1: the script ends with an error before it logs anything. *)
Lemma window_too_wide :
  run (script far_past empty_directory)
  = ([], Exc (Terminating ArgumentOutOfRange)).
Proof. reflexivity. Qed.
End UploaderSamples.

(** * Further properties *)

(** ** The uploader *)

Section UploaderMore.
Import AqaPostResults UploadObs.
Variables (p : Params) (w : World).

Lemma omap_length_le {A B} (f : A → option B) (l : list A) :
  (length (omap f l) ≤ length l)%nat.
Proof.
  induction l as [|x l IH]; [done|]. cbn [omap list_omap].
  destruct (f x); simpl; lia.
Qed.

(** The requests of the loop, when reading a file does not depend on what
    happened before. *)
Lemma requests_segments (c : Z) (content : FileInfo → Res ErrorRecord string)
    (fs : list FileInfo) (h : list Event) :
  can_authenticate w →
  (∀ h file, Get_Content w h (FullName file) = content file) →
  requests (concat (segments p w c h fs)) = posted p w c content fs.
Proof.
  intros Hauth Hcontent. revert h. induction fs as [|file fs IH]; intros h; [done|].
  cbn [segments concat].
  rewrite requests_app, IH, requests_file_events, Hcontent by done.
  unfold posted. cbn [omap list_omap].
  destruct (LastWriteTime file <? c); [done|].
  by destruct (content file).
Qed.

(** X1. With every required variable set and the results directory missing,
    the run consists of the one error naming the directory and ends with
    code 1, whatever the clock, the [Hours] parameter and the credentials
    are: nothing is logged, enumerated, read or posted. *)
Theorem X1_missing_results_directory :
  missing w = [] → Test_Path_Container w (ResultsDir p) = false →
  trace (script p w)
  = [WriteError ("Results directory not found: " +:+ ResultsDir p)]
  ∧ exit_code p w = 1
  ∧ (∀ pat, GetChildItem pat ∉ trace (script p w))
  ∧ (∀ path, GetContent path ∉ trace (script p w))
  ∧ requests (trace (script p w)) = [].
Proof.
  intros Hmiss Hdir. unfold trace, exit_code, outcome.
  rewrite (script_no_directory p w Hmiss Hdir). cbn [fst snd].
  split; [done|]. split; [done|].
  split; [|split; [|done]]; intros x Hin;
    (apply elem_of_cons in Hin as [Hin|Hin]; [discriminate Hin|]);
    by apply elem_of_nil in Hin.
Qed.


(** X3. In a run that reaches the loop and in which reading a file does not
    depend on the history, the requests issued with a user name and a
    password that are not empty are exactly one request for each matched file
    that is not older than the cutoff and can be read, in the order of the
    files: no stale or unreadable file is posted and no file is posted twice.
    With an empty user name or password nothing is posted. *)
Theorem X3_one_request_per_recent_readable_file
    (c : Z) (content : FileInfo → Res ErrorRecord string) :
  ready p w → cutoff p w = Val c →
  (∀ h file, Get_Content w h (FullName file) = content file) →
  (can_authenticate w →
     requests (trace (script p w)) = posted p w c content (files p w))
  ∧ (¬ can_authenticate w → requests (trace (script p w)) = [])
  ∧ (length (requests (trace (script p w))) ≤ length (files p w))%nat.
Proof.
  intros Hready Hcut Hcontent.
  assert (can_authenticate w →
          requests (trace (script p w)) = posted p w c content (files p w)) as Heq.
  { intros Hauth. unfold trace. destruct (decide (files p w = [])) as [Hnone|Hsome].
    - rewrite (script_no_files p w c Hready Hcut Hnone), Hnone. cbn [fst].
      by rewrite requests_app, requests_preamble.
    - rewrite (script_loop p w c Hready Hcut Hsome Hauth). cbn [fst].
      rewrite !requests_app, requests_preamble,
        (requests_segments c content) by done.
      cbn [app]. apply app_nil_r. }
  assert (¬ can_authenticate w → requests (trace (script p w)) = []) as Hnone.
  { intros Hnot. destruct (requests (trace (script p w))) as [|req reqs] eqn:Hreqs;
      [done|].
    assert (req ∈ requests (trace (script p w))) as Hin
      by (rewrite Hreqs; apply list_elem_of_here).
    apply elem_of_requests, script_request_shape in Hin as (_ & Hauth & _).
    done. }
  split; [done|]. split; [done|].
  destruct (decide (can_authenticate w)) as [Hauth|Hnot].
  - rewrite (Heq Hauth). unfold posted. apply omap_length_le.
  - rewrite (Hnone Hnot). simpl. lia.
Qed.

(** X4. With a credential, when a file that passes the age test cannot be
    read, the error is caught like a failed post: no request is sent, the two
    failure lines are logged with an empty status code (a read error carries
    no response), and the iteration ends normally with the separator. *)
Theorem X4_unreadable_file_is_logged_not_posted
    (c : Z) (h : list Event) (file : FileInfo) (err : ErrorRecord) :
  can_authenticate w →
  c ≤ LastWriteTime file →
  Get_Content w (h ++ announce p w file ++ [GetContent (FullName file)])
    (FullName file) = Exc err →
  ResponseStatus err = None →
  foreach_body p w c file h
  = (h ++ announce p w file
       ++ [ GetContent (FullName file);
            WriteHost ("Failed to post " +:+ Name file +:+ " (HTTP )") Red;
            WriteHost ("Error: " +:+ Message err) Red;
            separator ],
     Val ())
  ∧ requests (file_events p w c h file) = [].
Proof.
  intros Hauth Hnew Hread Hstatus. split.
  - rewrite foreach_body_total, (file_events_read_failure p w _ _ _ _ Hauth Hnew Hread)
      by done.
    unfold failure_lines. by rewrite Hstatus.
  - rewrite requests_file_events by done.
    apply Z.ltb_ge in Hnew. by rewrite Hnew, Hread.
Qed.


(** X6. Every request of a run is sent with basic parsing and with errors
    made terminating, and skips the certificate check exactly when the major
    version of PowerShell is 7 or later. *)
Theorem X6_request_options (req : Request) :
  InvokeWebRequest req ∈ trace (script p w) →
  UseBasicParsing req = true
  ∧ ErrorAction req = "Stop"
  ∧ (SkipCertificateCheck req = true ↔ 7 ≤ PSVersion_Major w).
Proof.
  intros Hin.
  destruct (script_request_shape p w req Hin)
    as (_ & _ & _ & _ & file & h & body & _ & _ & ->).
  split; [done|]. split; [done|]. cbn [request_for requestParams SkipCertificateCheck].
  apply Z.leb_le.
Qed.

(** X7. With a credential, after a response its body is echoed exactly when
    it is not empty, whatever the status code. *)
Theorem X7_response_body_echo
    (c : Z) (h : list Event) (file : FileInfo) (body : string) (resp : Response) :
  can_authenticate w →
  c ≤ LastWriteTime file →
  Get_Content w (h ++ announce p w file ++ [GetContent (FullName file)])
    (FullName file) = Val body →
  Invoke_WebRequest w
    ((h ++ announce p w file ++ [GetContent (FullName file)])
       ++ [InvokeWebRequest (request_for p w body)])
    (request_for p w body) = Val resp →
  (WriteHost ("Response: " +:+ Content resp) Gray ∈ file_events p w c h file
   ↔ Content resp ≠ "")
  ∧ (Content resp = "" → ∀ text, WriteHost text Gray ∉ file_events p w c h file).
Proof.
  intros Hauth Hnew Hread Hpost.
  rewrite (file_events_response p w _ _ _ _ _ Hauth Hnew Hread Hpost).
  unfold announce, response_echo, nonempty, success_line, unexpected_line, separator.
  destruct (String.eqb_spec (Content resp) "") as [Hempty|Hfull]; simpl.
  - assert (∀ text, WriteHost text Gray
              ∉ [ WriteHost ("Posting file: " +:+ Name file) Yellow;
                  WriteHost ("Debug - Endpoint: " +:+ env_value w "AQA_ENDPOINT") DarkGray;
                  WriteHost ("Debug - User: " +:+ env_value w "AQA_USER") DarkGray;
                  WriteHost ("Debug - Headers: " +:+ ConvertTo_Json w (headers p)) DarkGray;
                  GetContent (FullName file);
                  InvokeWebRequest (request_for p w body);
                  if (200 <=? StatusCode resp) && (StatusCode resp <? 300)
                  then WriteHost ("Successfully posted: " +:+ Name file +:+ " (HTTP "
                                  +:+ pretty (StatusCode resp) +:+ ")") Green
                  else WriteHost ("Unexpected status: " +:+ Name file +:+ " (HTTP "
                                  +:+ pretty (StatusCode resp) +:+ ")") Yellow;
                  WriteHost "---" DarkGray ]) as Hnone.
    { intros text Hin.
      destruct ((200 <=? StatusCode resp) && (StatusCode resp <? 300));
        repeat (apply elem_of_cons in Hin as [Hin|Hin]; [discriminate Hin|]);
        by apply elem_of_nil in Hin. }
    split; [|by intros _].
    split; [intros Hin; by destruct (Hnone _ Hin) | done].
  - split; [|done]. split; [done|]. intros _. find_in_list.
Qed.

(** X8. Asking for more hours never skips more: with the same clock, when
    the cutoffs for [Hours] and for a larger [Hours] are both [DateTime]s, the
    second is not later, so a file skipped with the larger value is also
    skipped with the smaller one; and a file written exactly at the cutoff is
    not skipped. *)
Theorem X8_more_hours_skip_less
    (p' : Params) (c c' : Z) (h : list Event) (file : FileInfo) :
  cutoff p w = Val c →
  (cutoff p' w = Val c' → Hours p ≤ Hours p' →
     c' ≤ c
     ∧ (file_events p' w c' h file = [skip_line w file] →
        file_events p w c h file = [skip_line w file]))
  ∧ (LastWriteTime file = c → file_events p w c h file ≠ [skip_line w file]).
Proof.
  intros [Hc _]%cutoff_value. split.
  - intros [Hc' _]%cutoff_value Hle.
    assert (c' ≤ c) as Hcut by (unfold TicksPerHour in *; lia).
    split; [done|]. intros Hskip.
    apply file_events_skip.
    destruct (Z.lt_ge_cases (LastWriteTime file) c') as [Hold|Hnew]; [lia|].
    by destruct (file_events_not_skipped p' w c' h file Hnew).
  - intros Heq. apply file_events_not_skipped. lia.
Qed.
End UploaderMore.

Section UploaderMoreSamples.
Import AqaPostResults UploadObs UploadSamples UploadCases.

Lemma X1_missing_results_directory_witness :
  trace (script defaults no_directory)
  = [WriteError "Results directory not found: ./test-results"]
  ∧ exit_code defaults no_directory = 1.
Proof.
  destruct (X1_missing_results_directory defaults no_directory)
    as (Htrace & Hcode & _); [reflexivity | reflexivity |].
  split; [exact Htrace | exact Hcode].
Defined.

Lemma X3_one_request_per_recent_readable_file_witness :
  requests (trace (script defaults flaky_server))
  = [ request_for defaults flaky_server "<testsuites/>";
      request_for defaults flaky_server "<testsuites/>" ].
Proof.
  refine (proj1 (X3_one_request_per_recent_readable_file defaults flaky_server
                   (hour 928) (λ _, Val "<testsuites/>") _ _ _) _).
  - split; reflexivity.
  - reflexivity.
  - intros h file. reflexivity.
  - split; discriminate.
Defined.

Lemma X4_unreadable_file_is_logged_not_posted_witness :
  requests (file_events defaults locked_file 0 [] fresh_report) = [].
Proof.
  refine (proj2 (X4_unreadable_file_is_logged_not_posted defaults locked_file 0 []
                   fresh_report
                   {| Message := "The process cannot access the file";
                      ResponseStatus := None |} _ _ _ _)).
  - split; discriminate.
  - discriminate.
  - reflexivity.
  - reflexivity.
Defined.


Lemma X6_request_options_witness :
  SkipCertificateCheck (request_for defaults flaky_server "<testsuites/>") = true.
Proof.
  destruct (X6_request_options defaults flaky_server
              (request_for defaults flaky_server "<testsuites/>"))
    as (_ & _ & Hskip).
  - apply flaky_server_request.
  - apply Hskip. discriminate.
Defined.

Lemma X7_response_body_echo_witness :
  WriteHost "Response: stored" Gray
    ∈ file_events defaults flaky_server 0 [] fresh_report.
Proof.
  refine (proj2 (proj1 (X7_response_body_echo defaults flaky_server 0 []
                          fresh_report "<testsuites/>"
                          {| StatusCode := 201; Content := "stored" |} _ _ _ _)) _).
  - split; discriminate.
  - discriminate.
  - reflexivity.
  - reflexivity.
  - discriminate.
Defined.

Lemma X8_more_hours_skip_less_witness :
  hour 900 ≤ hour 928.
Proof.
  refine (proj1 (proj1 (X8_more_hours_skip_less defaults flaky_server
                          hundred_hours (hour 928) (hour 900) [] stale_report _)
                   _ _)).
  - reflexivity.
  - reflexivity.
  - discriminate.
Defined.
End UploaderMoreSamples.

(** ** run.sh *)

Section RunShMore.
Import RunSh.

Ltac run_sh :=
  unfold trace, outcome, run, main, check_dependencies, run_tests,
    install_dependencies, install_browsers, junit_env, report_base_url,
    base_url_line, exec, exit, when, print_status, print_success, print_error,
    print_warning, mkdir_junit, local_outside_function;
  simpl;
  unfold mbind, M_bind, bind, emit, ask, throw, mret, M_ret, ret; simpl.

Ltac no_such_event Hin :=
  repeat (apply elem_of_cons in Hin as [Hin|Hin]; [discriminate Hin|]);
  by apply elem_of_nil in Hin.

(** X9. Every sub-command that checks the dependencies stops at the first one
    that is missing, in the order node, npm, package.json: it prints the
    matching error, runs no external command and ends with status 1. *)
Theorem X9_first_missing_dependency_stops (args : list string) (w : World) :
  subcommand args ∈ working_commands →
  subcommand args ≠ "report" →
  ¬ deps_ok w →
  trace (main args w)
  = [ Echo (BLUE +:+ "[INFO]" +:+ NC +:+ " " +:+ "Checking dependencies...");
      Echo (RED +:+ "[ERROR]" +:+ NC +:+ " " +:+
            (if negb (command_v w "node")
             then "Node.js is not installed. Please install Node.js v16 or higher."
             else if negb (command_v w "npm")
             then "npm is not installed. Please install npm."
             else "package.json not found. Please run this script from the test directory.")) ]
  ∧ exit_status args w = 1.
Proof.
  intros Hin Hrep Hdeps. unfold exit_status, outcome, trace, run, main, clauses.
  unfold working_commands in Hin.
  assert (command_v w "node" = false ∨ command_v w "node" = true
          ∧ (command_v w "npm" = false ∨ command_v w "npm" = true
             ∧ test_f w "package.json" = false)) as Hcase.
  { unfold deps_ok in Hdeps.
    destruct (command_v w "node"), (command_v w "npm"),
      (test_f w "package.json"); tauto. }
  repeat (apply elem_of_cons in Hin as [Hin|Hin];
    [rewrite Hin in *; simpl; run_sh;
     destruct Hcase as [H1|[H1 [H2|[H2 H3]]]];
     rewrite ?H1, ?H2, ?H3; simpl; split; reflexivity |]).
  apply elem_of_cons in Hin as [Hin|Hin]; [done | by apply elem_of_nil in Hin].
Qed.

(** X10. When the npm script of a test sub-command fails, the run ends right
    there with npm's own exit status: the script's "failed" message is never
    printed and its [exit 1] is never reached. *)
Theorem X10_failed_test_run_keeps_npm_status
    (args : list string) (w : World) (sub script descr : string) (code : Z) :
  (sub, (script, descr)) ∈ test_commands →
  subcommand args = sub →
  deps_ok w →
  (∀ h, status w h mkdir_junit = 0) →
  (∀ h, status w h ["npm"; "run"; script] = code) →
  code ≠ 0 →
  exit_status args w = code
  ∧ last (trace (main args w)) = Some (Exec ["npm"; "run"; script])
  ∧ Echo (RED +:+ "[ERROR]" +:+ NC +:+ " " +:+ descr +:+ " failed")
      ∉ trace (main args w).
Proof.
  intros Hin Hsub (Hnode & Hnpm & Hpkg) Hmk Hrun Hcode.
  apply Z.eqb_neq in Hcode.
  unfold test_commands in Hin.
  unfold exit_status, outcome, trace, run, main, clauses. rewrite Hsub.
  repeat (apply elem_of_cons in Hin as [Hin|Hin];
    [injection Hin as -> -> ->; simpl; run_sh;
     rewrite Hnode, Hnpm, Hpkg; simpl;
     destruct (base_url_set w); simpl; rewrite Hmk; simpl;
     rewrite Hrun, Hcode; simpl;
     (split; [reflexivity|]); (split; [reflexivity|]);
     intros Hbad; no_such_event Hbad |]).
  by apply elem_of_nil in Hin.
Qed.

(** X11. A test sub-command whose npm script succeeds checks the
    dependencies, announces the run, reports the base URL, creates the JUnit
    directory, exports the two JUnit variables (the file name carrying the
    date), and only then runs the npm script; it ends with the success message
    and status 0. *)
Theorem X11_successful_test_run
    (args : list string) (w : World) (sub script descr : string) :
  (sub, (script, descr)) ∈ test_commands →
  subcommand args = sub →
  deps_ok w →
  (∀ h, status w h mkdir_junit = 0) →
  (∀ h, status w h ["npm"; "run"; script] = 0) →
  trace (main args w)
  = [ Echo (BLUE +:+ "[INFO]" +:+ NC +:+ " " +:+ "Checking dependencies...");
      Echo (GREEN +:+ "[SUCCESS]" +:+ NC +:+ " " +:+ "Dependencies check passed");
      Echo (BLUE +:+ "[INFO]" +:+ NC +:+ " " +:+ "Running " +:+ descr +:+ "...");
      base_url_line w;
      Exec ["mkdir"; "-p"; "./junit-results"];
      Export "PLAYWRIGHT_JUNIT_OUTPUT_DIR" "./junit-results";
      Export "PLAYWRIGHT_JUNIT_OUTPUT_NAME" ("junit-" +:+ date w +:+ ".xml");
      Exec ["npm"; "run"; script];
      Echo (GREEN +:+ "[SUCCESS]" +:+ NC +:+ " " +:+ descr
            +:+ " completed successfully") ]
  ∧ exit_status args w = 0.
Proof.
  intros Hin Hsub (Hnode & Hnpm & Hpkg) Hmk Hrun.
  unfold test_commands in Hin.
  unfold exit_status, outcome, trace, run, main, clauses. rewrite Hsub.
  repeat (apply elem_of_cons in Hin as [Hin|Hin];
    [injection Hin as -> -> ->; simpl; run_sh;
     rewrite Hnode, Hnpm, Hpkg; simpl;
     destruct (base_url_set w); simpl; rewrite Hmk; simpl;
     rewrite Hrun; simpl; split; reflexivity |]).
  by apply elem_of_nil in Hin.
Qed.

(** X12. The [codegen] sub-command never starts anything: after the
    dependency check it fails on the [local] declared outside a function, so
    it runs no external command and ends with status 1 on every machine. *)
Theorem X12_codegen_runs_nothing (args : list string) (w : World) :
  subcommand args = "codegen" →
  exit_status args w = 1 ∧ ∀ argv, Exec argv ∉ trace (main args w).
Proof.
  intros Hsub. unfold exit_status, outcome, trace, run, main, clauses.
  rewrite Hsub. simpl. run_sh.
  destruct (command_v w "node"); simpl;
    [destruct (command_v w "npm"); simpl;
     [destruct (test_f w "package.json"); simpl|]|];
    (split; [reflexivity|]); intros argv Hin; no_such_event Hin.
Qed.

(** X13. When [npm install] fails during [setup], the run ends with npm's
    status: the browsers are not installed and no success is reported. *)
Theorem X13_setup_stops_at_failed_install
    (args : list string) (w : World) (code : Z) :
  subcommand args = "setup" →
  deps_ok w →
  (∀ h, status w h ["npm"; "install"] = code) →
  code ≠ 0 →
  exit_status args w = code
  ∧ last (trace (main args w)) = Some (Exec ["npm"; "install"])
  ∧ Exec ["npx"; "playwright"; "install"; "--with-deps"] ∉ trace (main args w).
Proof.
  intros Hsub (Hnode & Hnpm & Hpkg) Hinst Hcode. apply Z.eqb_neq in Hcode.
  unfold exit_status, outcome, trace, run, main, clauses. rewrite Hsub.
  simpl. run_sh. rewrite Hnode, Hnpm, Hpkg. simpl. rewrite Hinst, Hcode. simpl.
  split; [reflexivity|]. split; [reflexivity|].
  intros Hin. no_such_event Hin.
Qed.

Ltac in_at n :=
  lazymatch n with
  | O => apply list_elem_of_here
  | S ?m => apply list_elem_of_further; in_at m
  end.

Ltac search_line fuel n :=
  lazymatch fuel with
  | O => fail
  | S ?f => first [ solve [eexists; split; [in_at n | reflexivity]]
                  | search_line f (S n) ]
  end.

(** X14. The help text has an option line for every pattern of the [case]
    statement: each sub-command the script accepts is documented. *)
Theorem X14_help_lists_every_subcommand (w : World) (c : string) :
  c ∈ (clauses w).*1 →
  ∃ line, Echo line ∈ trace (show_help w)
          ∧ String.prefix ("  " +:+ c +:+ " ") line = true.
Proof.
  intros Hin. change ((clauses w).*1) with (working_commands ++ ["help"]) in Hin.
  unfold working_commands in Hin. simpl in Hin.
  unfold trace, run, show_help. simpl. unfold bind, emit. simpl.
  repeat (apply elem_of_cons in Hin as [->|Hin]; [search_line 31%nat 0%nat |]).
  by apply elem_of_nil in Hin.
Qed.
End RunShMore.

Section RunShMoreSamples.
Import RunSh Samples ShellCases.

Lemma X9_first_missing_dependency_stops_witness :
  exit_status ["all"] no_npm = 1.
Proof.
  refine (proj2 (X9_first_missing_dependency_stops ["all"] no_npm _ _ _)).
  - unfold working_commands. find_in_list.
  - discriminate.
  - intros (_ & Hnpm & _). discriminate Hnpm.
Defined.

Lemma X10_failed_test_run_keeps_npm_status_witness :
  exit_status ["mobile"] failing_tests = 1
  ∧ last (trace (main ["mobile"] failing_tests))
    = Some (Exec ["npm"; "run"; "test:mobile"]).
Proof.
  destruct (X10_failed_test_run_keeps_npm_status ["mobile"] failing_tests
              "mobile" "test:mobile" "Mobile browser tests" 1)
    as (Hstatus & Hlast & _).
  - unfold test_commands. find_in_list.
  - reflexivity.
  - repeat split.
  - intros h. reflexivity.
  - intros h. reflexivity.
  - discriminate.
  - split; [exact Hstatus | exact Hlast].
Defined.

Lemma X11_successful_test_run_witness :
  exit_status ["mobile"] sh_ready = 0.
Proof.
  refine (proj2 (X11_successful_test_run ["mobile"] sh_ready
                   "mobile" "test:mobile" "Mobile browser tests" _ _ _ _ _)).
  - unfold test_commands. find_in_list.
  - reflexivity.
  - repeat split.
  - intros h. reflexivity.
  - intros h. reflexivity.
Defined.

Lemma X12_codegen_runs_nothing_witness :
  exit_status ["codegen"] sh_ready = 1.
Proof.
  refine (proj1 (X12_codegen_runs_nothing ["codegen"] sh_ready _)). reflexivity.
Defined.

Lemma X13_setup_stops_at_failed_install_witness :
  exit_status ["setup"] install_fails = 1.
Proof.
  refine (proj1 (X13_setup_stops_at_failed_install ["setup"] install_fails 1 _ _ _ _)).
  - reflexivity.
  - repeat split.
  - intros h. reflexivity.
  - discriminate.
Defined.

Lemma X14_help_lists_every_subcommand_witness :
  ∃ line, Echo line ∈ trace (show_help sh_ready)
          ∧ String.prefix "  mobile-responsive " line = true.
Proof.
  refine (X14_help_lists_every_subcommand sh_ready "mobile-responsive" _).
  simpl. find_in_list.
Defined.
End RunShMoreSamples.

(** ** The global-setup hooks *)

Section GlobalSetupMore.
Import GlobalSetup HookObs.
Variable config : Config.PlaywrightConfig.

Ltac run_setup :=
  unfold closes, trace, outcome, run, Strict.globalSetup, Tolerant.globalSetup;
  unfold mbind, M_bind, bind, try_finally, try_catch, await, console_log,
    console_warn, console_error, emit, throw, mret, M_ret, ret.

Ltac case_calls w :=
  repeat (match goal with
    | |- context [goto w ?url] => destruct (goto w url) as [[]|?]
    | |- context [waitForLoadState w] => destruct (waitForLoadState w) as [[]|?]
    | |- context [title w] => destruct (title w) as [?|?]
    | |- context [storageState w] => destruct (storageState w) as [[]|?]
    | |- context [close w] => destruct (close w) as [[]|?]
    end; simpl).

(** X15. In both hooks, once browser, context and page have been acquired,
    [browser.close()] is called exactly once and it is the last thing the hook
    does, whatever succeeds or fails in between. *)
Theorem X15_browser_closed_once_and_last (w : World) :
  acquired w →
  closes (trace (Strict.globalSetup config w)) = 1%nat
  ∧ last (trace (Strict.globalSetup config w)) = Some Close
  ∧ closes (trace (Tolerant.globalSetup config w)) = 1%nat
  ∧ last (trace (Tolerant.globalSetup config w)) = Some Close.
Proof.
  intros (Hl & Hc & Hp). run_setup. rewrite Hl, Hc, Hp. simpl.
  case_calls w; repeat split.
Qed.

(** X16. The tolerant hook tolerates every failure of the health check, not
    only a failed navigation: once the acquisitions succeeded, it always goes
    on to save the storage state, it returns normally exactly when saving the
    storage state and closing the browser succeed, and a failure of the
    navigation, of the wait for the load state or of reading the title is
    logged as a warning with its message. *)
Theorem X16_tolerant_hook_ignores_health_check (w : World) :
  acquired w →
  StorageState "global-state.json" ∈ trace (Tolerant.globalSetup config w)
  ∧ (outcome (Tolerant.globalSetup config w) = Val ()
     ↔ storageState w = Val () ∧ close w = Val ())
  ∧ (∀ msg,
       goto w "https://www-dev.analytiqa.cloud/" = Exc msg
       ∨ goto w "https://www-dev.analytiqa.cloud/" = Val ()
         ∧ (waitForLoadState w = Exc msg
            ∨ waitForLoadState w = Val () ∧ title w = Exc msg) →
       Console Warn ["⚠️  Could not verify website accessibility:"; msg]
         ∈ trace (Tolerant.globalSetup config w)).
Proof.
  intros (Hl & Hc & Hp). run_setup. rewrite Hl, Hc, Hp. simpl.
  case_calls w;
    (split; [find_in_list|]);
    (split; [split; [try discriminate; done | by intros [? ?]]|]);
    intros msg [Hg|[Hg [Hw|[Hw Ht]]]]; try discriminate; simplify_eq;
    find_in_list.
Qed.

(** X17. The strict hook returns normally exactly when the whole health
    check, saving the storage state and closing the browser all succeed; and
    it saves the storage state only after a health check that passed. *)
Theorem X17_strict_hook_needs_everything (w : World) :
  acquired w →
  (outcome (Strict.globalSetup config w) = Val ()
   ↔ healthy "https://dev.analytiqa.cloud" w
     ∧ storageState w = Val () ∧ close w = Val ())
  ∧ (StorageState "global-state.json" ∈ trace (Strict.globalSetup config w)
     ↔ healthy "https://dev.analytiqa.cloud" w).
Proof.
  intros (Hl & Hc & Hp). unfold healthy. run_setup. rewrite Hl, Hc, Hp. simpl.
  case_calls w; (split; split; intros H);
    try discriminate H;
    try (exfalso;
         repeat (apply elem_of_cons in H as [H|H]; [discriminate H|]);
         by apply elem_of_nil in H);
    try (destruct H as ((? & ? & ? & ?) & ? & ?); discriminate);
    try (destruct H as (? & ? & ? & ?); discriminate);
    try solve [find_in_list];
    try solve [repeat split; eauto].
Qed.

(** X18. An error raised while closing the browser replaces whatever the
    hook was about to return or throw: when [browser.close()] rejects, both
    hooks throw the error of the close, also after a health check that failed
    with another error. *)
Theorem X18_close_error_masks_outcome (w : World) (e : string) :
  acquired w → close w = Exc e →
  outcome (Strict.globalSetup config w) = Exc e
  ∧ outcome (Tolerant.globalSetup config w) = Exc e.
Proof.
  intros (Hl & Hc & Hp) Hclose. run_setup. rewrite Hl, Hc, Hp, Hclose. simpl.
  case_calls w; split; reflexivity.
Qed.
End GlobalSetupMore.

Section GlobalSetupMoreSamples.
Import GlobalSetup HookObs Samples.

Lemma X15_browser_closed_once_and_last_witness :
  closes (trace (Strict.globalSetup local_config site_down)) = 1%nat
  ∧ last (trace (Tolerant.globalSetup local_config site_down)) = Some Close.
Proof.
  destruct (X15_browser_closed_once_and_last local_config site_down)
    as (Hone & _ & _ & Hlast).
  - repeat split.
  - split; [exact Hone | exact Hlast].
Defined.

Lemma X16_tolerant_hook_ignores_health_check_witness :
  Console Warn ["⚠️  Could not verify website accessibility:";
                "page.waitForLoadState: Timeout 30000ms exceeded"]
    ∈ trace (Tolerant.globalSetup local_config never_idle)
  ∧ outcome (Tolerant.globalSetup local_config never_idle) = Val ().
Proof.
  destruct (X16_tolerant_hook_ignores_health_check local_config never_idle)
    as (_ & Hret & Hwarn).
  - repeat split.
  - split.
    + apply Hwarn. right. split; [reflexivity|]. left. reflexivity.
    + apply Hret. split; reflexivity.
Defined.

Lemma X17_strict_hook_needs_everything_witness :
  outcome (Strict.globalSetup local_config site_up) = Val ().
Proof.
  destruct (X17_strict_hook_needs_everything local_config site_up) as (Hret & _).
  - repeat split.
  - apply Hret. repeat split. by exists "Qualtiva Solutions".
Defined.

Lemma X18_close_error_masks_outcome_witness :
  outcome (Strict.globalSetup local_config close_fails)
  = Exc "browser.close: Connection closed"
  ∧ outcome (Tolerant.globalSetup local_config close_fails)
    = Exc "browser.close: Connection closed".
Proof.
  apply (X18_close_error_masks_outcome local_config close_fails).
  - repeat split.
  - reflexivity.
Defined.
End GlobalSetupMoreSamples.

(** ** The global-teardown hook *)

Section GlobalTeardownMore.
Import GlobalTeardown HookObs.
Variable config : Config.PlaywrightConfig.

Ltac run_teardown :=
  unfold cleanup_ok, trace, outcome, run, globalTeardown, call, when;
  unfold mbind, M_bind, foreach, bind, try_catch, emit, throw, mret, M_ret, ret.

Ltac case_world w :=
  repeat (match goal with
    | |- context [existsSync w ?f] => destruct (existsSync w f)
    | |- context [unlinkSync w ?f] => destruct (unlinkSync w f) as [[]|?]
    | |- context [writeFileSync w ?f ?d] =>
        destruct (writeFileSync w f d) as [[]|?]
    end; simpl).

Ltac not_in_trace H :=
  exfalso;
  repeat (apply elem_of_cons in H as [H|H]; [discriminate H|]);
  by apply elem_of_nil in H.

(** X19. The teardown hook never throws: every failure of a file-system call
    is caught and logged.  It reports success exactly when the clean-up and
    the write of the summary both succeeded, and reports a failure exactly
    otherwise. *)
Theorem X19_teardown_never_throws (w : World) :
  let written :=
    writeFileSync w "test-results/summary.json"
      (JSON.stringify (summary (now w)) 2) = Val () in
  outcome (globalTeardown config w) = Val ()
  ∧ (ConsoleLog "✅ Global teardown completed successfully"
       ∈ trace (globalTeardown config w)
     ↔ cleanup_ok w ∧ written)
  ∧ ((∃ msg, ConsoleError "❌ Global teardown failed:" msg
               ∈ trace (globalTeardown config w))
     ↔ ¬ (cleanup_ok w ∧ written)).
Proof.
  cbv zeta. run_teardown.
  set (data := JSON.stringify (summary (now w)) 2).
  case_world w; (split; [reflexivity|]); (split; split; intros H);
    try solve [find_in_list];
    try solve [split; [by intros _ | reflexivity]];
    try solve [split; [intros Hx; discriminate Hx | reflexivity]];
    try solve [not_in_trace H];
    try solve [destruct H as [msg H]; not_in_trace H];
    try solve [eexists; find_in_list];
    try solve [destruct H as [H1 H2]; discriminate H2];
    try solve [destruct H as [H1 H2]; specialize (H1 eq_refl); discriminate H1];
    try solve [intros [H1 H2]; discriminate H2];
    try solve [intros [H1 H2]; specialize (H1 eq_refl); discriminate H1];
    try solve [exfalso; apply H; split; [by intros _ | reflexivity]];
    try solve [exfalso; apply H; split; [by intros ? | reflexivity]].
Qed.

(** X20. The summary is written exactly when the clean-up did not fail: a
    state file that exists and cannot be removed makes the hook skip the
    summary.  The state file is removed only if it exists. *)
Theorem X20_summary_needs_clean_up (w : World) :
  (WriteFileSync "test-results/summary.json" (JSON.stringify (summary (now w)) 2)
     ∈ trace (globalTeardown config w)
   ↔ cleanup_ok w)
  ∧ (UnlinkSync "global-state.json" ∈ trace (globalTeardown config w)
     ↔ existsSync w "global-state.json" = true).
Proof.
  run_teardown.
  set (data := JSON.stringify (summary (now w)) 2).
  case_world w; (split; split; intros H);
    try solve [find_in_list];
    try reflexivity;
    try discriminate H;
    try solve [by intros _];
    try solve [intros Hx; discriminate Hx];
    try solve [not_in_trace H];
    try solve [specialize (H eq_refl); discriminate H].
Qed.
End GlobalTeardownMore.

Lemma X20_summary_needs_clean_up_witness :
  GlobalTeardown.UnlinkSync "global-state.json"
    ∈ trace (GlobalTeardown.globalTeardown Samples.local_config
               HookObs.state_file_locked).
Proof.
  apply (X20_summary_needs_clean_up Samples.local_config HookObs.state_file_locked).
  reflexivity.
Defined.

(** ** The configuration and the summary *)

(** X21. The summary written by the teardown hook agrees with the
    configuration: its [browsers] member lists the names of the configured
    projects in their order, its [totalBrowsers] member is their number, and
    the project names are pairwise different. *)
Theorem X21_summary_matches_configured_projects
    (env : gmap string string) (testRun : string) :
  let names := Config.name <$> Config.projects (Config.defineConfig env) in
  JSON.get "browsers" (GlobalTeardown.summary testRun)
  = Some (JSON.Arr (JSON.Str <$> names))
  ∧ JSON.get "totalBrowsers" (GlobalTeardown.summary testRun)
    = Some (JSON.Num (Z.of_nat (length names)))
  ∧ NoDup names.
Proof.
  cbv zeta. split; [reflexivity|]. split; [reflexivity|].
  simpl. repeat (apply NoDup_cons; split;
    [intros Hin; repeat (apply elem_of_cons in Hin as [Hin|Hin]; [discriminate Hin|]);
     by apply elem_of_nil in Hin |]).
  apply NoDup_nil. done.
Qed.

(** ** The test specifications *)

Section SpecTestsFacts.
Import SpecTests.

Ltac run_test :=
  unfold outcome, run, should_not_have_console_errors,
    should_have_minimal_JavaScript_errors,
    should_handle_JavaScript_errors_gracefully,
    should_have_proper_touch_targets,
    should_meet_mobile_accessibility_standards,
    beforeEach_load, beforeEach_networkidle, await, expect, when;
  unfold mbind, M_bind, bind, emit, throw, mret, M_ret, ret.

(** A step that must have succeeded for a test to pass. *)
Ltac step r :=
  destruct r as [[]|?]; simpl;
    [|split; [discriminate | intros H; decompose [and] H; discriminate]].

Lemma critical_extended_is_critical (e : string) :
  critical_extended e = true → critical_performance e = true.
Proof.
  unfold critical_extended, critical_performance.
  rewrite !andb_true_iff. tauto.
Qed.

Lemma critical_performance_spec (e : string) :
  critical_performance e = false
  ↔ includes e "favicon" = true ∨ includes e "analytics" = true
    ∨ includes e "third-party" = true.
Proof.
  unfold critical_performance.
  destruct (includes e "favicon"), (includes e "analytics"),
    (includes e "third-party"); simpl; split; try tauto; try discriminate;
    intros [H|[H|H]]; discriminate H.
Qed.

(** The extended filter keeps no more errors than the filter of the
    performance test. *)
Lemma extended_within_performance (errors : list string) :
  (length (filter (λ e, critical_extended e) errors)
   ≤ length (filter (λ e, critical_performance e) errors))%nat.
Proof.
  induction errors as [|e errors IH]; [done|].
  rewrite !filter_cons.
  destruct (decide (critical_extended e)) as [He|He].
  - rewrite decide_True; [simpl; lia|].
    apply Is_true_true, critical_extended_is_critical. by apply Is_true_true.
  - destruct (decide (critical_performance e)); simpl; lia.
Qed.

Lemma no_critical_errors (errors : list string) :
  filter (λ e, critical_performance e) errors = []
  ↔ ∀ e, e ∈ errors →
         includes e "favicon" = true ∨ includes e "analytics" = true
         ∨ includes e "third-party" = true.
Proof.
  split.
  - intros Hnil e He. apply critical_performance_spec.
    destruct (critical_performance e) eqn:Hc; [|done].
    assert (e ∈ filter (λ e, critical_performance e) errors) as Hin.
    { apply list_elem_of_filter. split; [by rewrite Hc | done]. }
    rewrite Hnil in Hin. by apply elem_of_nil in Hin.
  - intros Hall.
    destruct (filter _ errors) as [|e rest] eqn:Hfilter; [done|].
    assert (e ∈ filter (λ e, critical_performance e) errors) as Hin.
    { rewrite Hfilter. apply list_elem_of_here. }
    apply list_elem_of_filter in Hin as [Hc Hin].
    apply Hall, critical_performance_spec in Hin.
    rewrite Hin in Hc. done.
Qed.

(** X22. Each console-error test passes exactly when its hook and its own
    navigation succeed and the console errors its handler captured stay
    within its budget: none that is critical (all mention favicon, analytics
    or third-party) for the performance test, fewer than 5 critical ones for
    the best-practices test, fewer than 10 for the cross-browser test.  The
    budgets are nested: on any list of captured errors, the extended filter
    keeps only errors that the filter of the performance test keeps, and no
    more of them. *)
Theorem X22_console_error_budgets :
  (∀ w, outcome (should_not_have_console_errors w) = Val ()
        ↔ goto w = Val () ∧ waitForLoadState w = Val ()
          ∧ ∀ e, e ∈ consoleErrors w →
                 includes e "favicon" = true ∨ includes e "analytics" = true
                 ∨ includes e "third-party" = true)
  ∧ (∀ w, outcome (should_have_minimal_JavaScript_errors w) = Val ()
          ↔ beforeEach_goto w = Val () ∧ beforeEach_waitForLoadState w = Val ()
            ∧ goto w = Val () ∧ waitForLoadState w = Val ()
            ∧ (length (filter (λ e, critical_extended e) (consoleErrors w)) < 5)%nat)
  ∧ (∀ w browserName,
       outcome (should_handle_JavaScript_errors_gracefully w browserName) = Val ()
       ↔ beforeEach_goto w = Val () ∧ beforeEach_waitForLoadState w = Val ()
         ∧ goto w = Val () ∧ waitForLoadState w = Val ()
         ∧ (length (filter (λ e, critical_extended e) (consoleErrors w)) < 10)%nat)
  ∧ (∀ errors : list string,
       (∀ e, e ∈ filter (λ e, critical_extended e) errors →
             e ∈ filter (λ e, critical_performance e) errors)
       ∧ (length (filter (λ e, critical_extended e) errors)
          ≤ length (filter (λ e, critical_performance e) errors))%nat).
Proof.
  split; [|split; [|split]].
  - intros w. rewrite <- no_critical_errors. run_test.
    step (goto w). step (waitForLoadState w).
    case_bool_decide as Hlen; simpl.
    + apply nil_length_inv in Hlen. by rewrite Hlen.
    + split; [discriminate|]. intros (_ & _ & Hnil). by rewrite Hnil in Hlen.
  - intros w. run_test.
    step (beforeEach_goto w). step (beforeEach_waitForLoadState w).
    step (goto w). step (waitForLoadState w).
    case_bool_decide as Hlen; simpl.
    + case_bool_decide; simpl; done.
    + split; [discriminate|]. by intros (_ & _ & _ & _ & ?).
  - intros w browserName. run_test.
    step (beforeEach_goto w). step (beforeEach_waitForLoadState w).
    step (goto w). step (waitForLoadState w).
    case_bool_decide as Hlen; simpl.
    + case_bool_decide; simpl; done.
    + split; [discriminate|]. by intros (_ & _ & _ & _ & ?).
  - intros errors. split; [|apply extended_within_performance].
    intros e. rewrite !list_elem_of_filter. intros [Hc Hin]. split; [|done].
    apply Is_true_true in Hc. apply Is_true_true.
    by apply critical_extended_is_critical.
Qed.

(** *** The counters and the tables of agreement *)

Lemma agree_row_spec (agrees : N → N → float → float → bool)
    (k : nat) (p : N) (pf : float) (s : nat) :
  agree_row agrees k p (N.of_nat s) pf (counted s) = true →
  ∀ j, (j < k)%nat → agrees p (N.of_nat (s + j)) pf (counted (s + j)) = true.
Proof.
  revert s. induction k as [|k IH]; intros s Hrow j Hj; [lia|].
  cbn [agree_row] in Hrow. apply andb_true_iff in Hrow as [Hhere Hrest].
  destruct j as [|j].
  - by rewrite Nat.add_0_r.
  - rewrite <- Nat2N.inj_succ in Hrest.
    replace (s + S j)%nat with (S s + j)%nat by lia.
    apply IH; [exact Hrest | lia].
Qed.

Lemma agree_table_spec (agrees : N → N → float → float → bool)
    (rows k : nat) (p : nat) :
  agree_table agrees rows k (N.of_nat p) (counted p) = true →
  ∀ i j, (i < rows)%nat → (j < k)%nat →
    agrees (N.of_nat (p + i)) (N.of_nat j) (counted (p + i)) (counted j) = true.
Proof.
  revert p. induction rows as [|rows IH]; intros p Htable i j Hi Hj; [lia|].
  cbn [agree_table] in Htable. apply andb_true_iff in Htable as [Hrow Hrest].
  destruct i as [|i].
  - rewrite Nat.add_0_r.
    apply (agree_row_spec agrees k (N.of_nat p) (counted p) 0 Hrow j Hj).
  - rewrite <- Nat2N.inj_succ in Hrest.
    replace (p + S i)%nat with (S p + i)%nat by lia.
    apply IH; [exact Hrest | lia | lia].
Qed.

(** Up to 400 on both counters, the rate tests on floats decide the exact
    comparisons of the fractions. *)
Lemma rate_table :
  agree_table rate_agrees (S checked_up_to) (S checked_up_to) 0%N 0%float = true.
Proof. vm_compute. reflexivity. Qed.

Lemma alt_table :
  agree_table alt_agrees (S checked_up_to) (S checked_up_to) 0%N 0%float = true.
Proof. vm_compute. reflexivity. Qed.

Lemma rate_exact (p s : nat) :
  (p ≤ checked_up_to)%nat → (s ≤ checked_up_to)%nat →
  PrimFloat.ltb f0_8 (counted p / (counted p + counted s))%float = true
  ↔ (4 * (p + s) < 5 * p)%nat.
Proof.
  intros Hp Hs.
  pose proof (agree_table_spec rate_agrees _ _ 0 rate_table p s) as Hagree.
  cbn [Nat.add] in Hagree. specialize (Hagree ltac:(lia) ltac:(lia)).
  unfold rate_agrees in Hagree. apply Bool.eqb_prop in Hagree.
  rewrite Hagree, N.ltb_lt. lia.
Qed.

Lemma alt_exact (a n : nat) :
  (a ≤ checked_up_to)%nat → (n ≤ checked_up_to)%nat →
  PrimFloat.ltb f0_7 (counted a / counted n)%float = true
  ↔ (7 * n < 10 * a)%nat.
Proof.
  intros Ha Hn.
  pose proof (agree_table_spec alt_agrees _ _ 0 alt_table a n) as Hagree.
  cbn [Nat.add] in Hagree. specialize (Hagree ltac:(lia) ltac:(lia)).
  unfold alt_agrees in Hagree. apply Bool.eqb_prop in Hagree.
  rewrite Hagree, N.ltb_lt. lia.
Qed.

(** When every [boundingBox()] resolves, the loop ends with the two counters
    at the numbers of proper and of small boxes, and only logs. *)
Lemma touch_targets_run (w : World) (boxes : list (option Box))
    (p s : nat) (h : list Event) :
  ∃ h', touch_targets w (Val <$> boxes) (counted p) (counted s) h
        = (h', Val (counted (p + proper_targets boxes),
                    counted (s + small_targets boxes))).
Proof.
  revert p s h. induction boxes as [|b boxes IH]; intros p s h.
  - exists h. unfold proper_targets, small_targets. simpl.
    by rewrite !Nat.add_0_r.
  - cbn [fmap list_fmap touch_targets query].
    unfold proper_targets, small_targets in *. rewrite !filter_cons.
    destruct b as [box|]; simpl.
    + destruct (big_enough box) eqn:Hbig; simpl.
      * destruct (IH (S p) s h) as [h' Hrun]. exists h'.
        unfold mbind, M_bind, bind, mret, M_ret, ret in *. simpl.
        rewrite Hbig. cbn [counted] in Hrun. rewrite Hrun.
        by rewrite Nat.add_succ_r.
      * destruct (IH p (S s) (h ++ [ConsoleLog
            ("⚠️  Small touch target found: "
             +:+ number_to_string w (width box) +:+ "x"
             +:+ number_to_string w (height box) +:+ "px")])) as [h' Hrun].
        exists h'.
        unfold mbind, M_bind, bind, mret, M_ret, ret, emit in *. simpl.
        rewrite Hbig. cbn [counted] in Hrun. rewrite Hrun.
        by rewrite Nat.add_succ_r.
    + destruct (IH p s h) as [h' Hrun]. exists h'.
      unfold mbind, M_bind, bind, mret, M_ret, ret in *. simpl. exact Hrun.
Qed.

Lemma count_alts_run (images : list (option string)) (a n : nat) (h : list Event) :
  count_alts (Val <$> images) (counted a) (counted n) h
  = (h, Val (counted (a + with_alt images), counted (n + length images))).
Proof.
  revert a n. induction images as [|alt images IH]; intros a n.
  - unfold with_alt. simpl. by rewrite !Nat.add_0_r.
  - cbn [fmap list_fmap count_alts query length].
    unfold with_alt in *. rewrite filter_cons.
    unfold mbind, M_bind, bind, mret, M_ret, ret in *. simpl.
    destruct (has_alt alt) eqn:Halt; simpl.
    + pose proof (IH (S a) (S n)) as Hrun. cbn [counted] in Hrun.
      rewrite Hrun. by rewrite !Nat.add_succ_r.
    + pose proof (IH a (S n)) as Hrun. cbn [counted] in Hrun.
      rewrite Hrun. by rewrite !Nat.add_succ_r.
Qed.

Lemma targets_bounded (boxes : list (option Box)) :
  (proper_targets boxes ≤ length boxes)%nat
  ∧ (small_targets boxes ≤ length boxes)%nat.
Proof. split; apply length_filter. Qed.

(** The calls of a loop either all resolve, or there is a first one that
    rejects. *)
Lemma calls_cases {A} (calls : list (Res string A)) :
  (∃ xs, calls = Val <$> xs)
  ∨ (∃ xs e rest, calls = (Val <$> xs) ++ Exc e :: rest).
Proof.
  induction calls as [|[x|e] calls IH].
  - left. by exists [].
  - destruct IH as [[xs ->]|(xs & e & rest & ->)].
    + left. by exists (x :: xs).
    + right. by exists (x :: xs), e, rest.
  - right. by exists [], e, calls.
Qed.

Lemma not_all_resolve {A} (xs ys : list A) (e : string) (rest : list (Res string A)) :
  (Val <$> xs) ++ Exc e :: rest ≠ Val <$> ys.
Proof.
  intros Heq.
  assert (Exc e ∈ (Val <$> ys : list (Res string A))) as Hin.
  { rewrite <- Heq. apply elem_of_app. right. apply list_elem_of_here. }
  apply list_elem_of_fmap in Hin as (y & Hy & _). discriminate Hy.
Qed.

Lemma all_resolve_inj {A} (xs ys : list A) :
  (Val <$> xs : list (Res string A)) = Val <$> ys → xs = ys.
Proof.
  revert ys. induction xs as [|x xs IH]; intros [|y ys] Heq; try done.
  injection Heq as -> Heq. f_equal. by apply IH.
Qed.

(** A [boundingBox()] that rejects ends the loop with its error. *)
Lemma touch_targets_rejects (w : World) (boxes : list (option Box)) (e : string)
    (rest : list (Res string (option Box))) (pf sf : float) (h : list Event) :
  ∃ h', touch_targets w ((Val <$> boxes) ++ Exc e :: rest) pf sf h = (h', Exc e).
Proof.
  revert pf sf h. induction boxes as [|b boxes IH]; intros pf sf h.
  - by exists h.
  - cbn [fmap list_fmap app touch_targets query].
    unfold mbind, M_bind, bind, mret, M_ret, ret, emit. simpl.
    destruct b as [box|]; [destruct (big_enough box)|]; simpl; apply IH.
Qed.

Lemma count_alts_rejects (images : list (option string)) (e : string)
    (rest : list (Res string (option string))) (af nf : float) (h : list Event) :
  count_alts ((Val <$> images) ++ Exc e :: rest) af nf h = (h, Exc e).
Proof.
  revert af nf. induction images as [|alt images IH]; intros af nf; [done|].
  cbn [fmap list_fmap app count_alts query].
  unfold mbind, M_bind, bind, mret, M_ret, ret. simpl.
  destruct (has_alt alt); apply IH.
Qed.

(** X23. On a page with at most 400 clickable elements, the touch-target
    test passes exactly when the hook of its file and the steps of its body
    succeed, every [boundingBox()] resolves, and strictly more than 80% of
    the elements that have a box are at least 44 by 44 (the comparison the
    test makes on floats decides this comparison of fractions).  So it fails
    whenever no element has a box of that size, also on a page without any
    clickable element, where the rate is 0/0. *)
Theorem X23_touch_target_rate (w : World) :
  (length (boundingBoxes w) ≤ checked_up_to)%nat →
  (outcome (should_have_proper_touch_targets w) = Val ()
   ↔ beforeEach_goto w = Val () ∧ beforeEach_waitForLoadState w = Val ()
     ∧ setViewportSize w = Val () ∧ reload w = Val ()
     ∧ waitForLoadState w = Val ()
     ∧ ∃ boxes, boundingBoxes w = Val <$> boxes
                ∧ (4 * (proper_targets boxes + small_targets boxes)
                   < 5 * proper_targets boxes)%nat)
  ∧ (∀ boxes, boundingBoxes w = Val <$> boxes → proper_targets boxes = 0%nat →
              outcome (should_have_proper_touch_targets w) ≠ Val ()).
Proof.
  intros Hlen.
  assert (outcome (should_have_proper_touch_targets w) = Val ()
   ↔ beforeEach_goto w = Val () ∧ beforeEach_waitForLoadState w = Val ()
     ∧ setViewportSize w = Val () ∧ reload w = Val ()
     ∧ waitForLoadState w = Val ()
     ∧ ∃ boxes, boundingBoxes w = Val <$> boxes
                ∧ (4 * (proper_targets boxes + small_targets boxes)
                   < 5 * proper_targets boxes)%nat) as Hpass.
  { run_test.
    step (beforeEach_goto w). step (beforeEach_waitForLoadState w).
    step (setViewportSize w). step (reload w). step (waitForLoadState w).
    destruct (calls_cases (boundingBoxes w)) as [[boxes Hboxes]|(xs & e & rest & Hcalls)].
    - rewrite Hboxes in Hlen |- *. rewrite length_fmap in Hlen.
      destruct (targets_bounded boxes) as [Hp Hs].
      pose proof (rate_exact (proper_targets boxes) (small_targets boxes)
                    ltac:(lia) ltac:(lia)) as [Hthen Hback].
      destruct (touch_targets_run w boxes 0 0
                  [Goto "/"; WaitForLoadState "load"; SetViewportSize 375 667;
                   Reload; WaitForLoadState "load"])
        as [h' Hrun].
      cbn [counted Nat.add] in Hrun. rewrite Hrun. cbn [fst snd].
      destruct (PrimFloat.ltb f0_8 _); simpl.
      + split; [|done]. intros _. do 5 (split; [done|]).
        exists boxes. split; [done|]. by apply Hthen.
      + split; [discriminate|]. intros (_ & _ & _ & _ & _ & boxes' & Heq & Hmore).
        apply all_resolve_inj in Heq as <-. by specialize (Hback Hmore).
    - rewrite Hcalls.
      destruct (touch_targets_rejects w xs e rest 0 0
                  [Goto "/"; WaitForLoadState "load"; SetViewportSize 375 667;
                   Reload; WaitForLoadState "load"])
        as [h' Hrun].
      rewrite Hrun. simpl. split; [discriminate|].
      intros (_ & _ & _ & _ & _ & boxes' & Heq & _).
      by apply not_all_resolve in Heq. }
  split; [exact Hpass|].
  intros boxes Hboxes Hzero Hok. apply Hpass in Hok.
  destruct Hok as (_ & _ & _ & _ & _ & boxes' & Heq & Hmore).
  rewrite Hboxes in Heq. apply all_resolve_inj in Heq as <-. lia.
Qed.

(** X24. On a page with at most 400 images, the mobile accessibility test
    passes exactly when the hook of its file and the steps of its body
    succeed, the page has a single h1, every [getAttribute('alt')] resolves,
    and strictly more than 70% of the images have a non-empty alternative
    text (the comparison the test makes on floats decides this comparison of
    fractions).  So it fails on a page without images, where the rate is
    0/0. *)
Theorem X24_alt_text_rate (w : World) :
  (length (alts w) ≤ checked_up_to)%nat →
  (outcome (should_meet_mobile_accessibility_standards w) = Val ()
   ↔ beforeEach_goto w = Val () ∧ beforeEach_waitForLoadState w = Val ()
     ∧ setViewportSize w = Val () ∧ reload w = Val ()
     ∧ waitForLoadState w = Val ()
     ∧ h1_count w = 1
     ∧ ∃ images, alts w = Val <$> images
                 ∧ (7 * length images < 10 * with_alt images)%nat)
  ∧ (alts w = [] →
     outcome (should_meet_mobile_accessibility_standards w) ≠ Val ()).
Proof.
  intros Hlen.
  assert (outcome (should_meet_mobile_accessibility_standards w) = Val ()
   ↔ beforeEach_goto w = Val () ∧ beforeEach_waitForLoadState w = Val ()
     ∧ setViewportSize w = Val () ∧ reload w = Val ()
     ∧ waitForLoadState w = Val ()
     ∧ h1_count w = 1
     ∧ ∃ images, alts w = Val <$> images
                 ∧ (7 * length images < 10 * with_alt images)%nat) as Hpass.
  { run_test.
    step (beforeEach_goto w). step (beforeEach_waitForLoadState w).
    step (setViewportSize w). step (reload w). step (waitForLoadState w).
    destruct (Z.eqb_spec (h1_count w) 1) as [Hone|Hmany]; simpl.
    2: { split; [discriminate|]. by intros (_ & _ & _ & _ & _ & ? & _). }
    destruct (calls_cases (alts w)) as [[images Himages]|(xs & e & rest & Hcalls)].
    - rewrite Himages in Hlen |- *. rewrite length_fmap in Hlen.
      assert (with_alt images ≤ length images)%nat as Ha by apply length_filter.
      pose proof (alt_exact (with_alt images) (length images)
                    ltac:(lia) ltac:(lia)) as [Hthen Hback].
      rewrite (count_alts_run images 0 0). cbn [fst snd Nat.add].
      destruct (PrimFloat.ltb f0_7 _); simpl.
      + split; [|done]. intros _. do 6 (split; [done|]).
        exists images. split; [done|]. by apply Hthen.
      + split; [discriminate|].
        intros (_ & _ & _ & _ & _ & _ & images' & Heq & Hmore).
        apply all_resolve_inj in Heq as <-. by specialize (Hback Hmore).
    - rewrite Hcalls, count_alts_rejects. simpl. split; [discriminate|].
      intros (_ & _ & _ & _ & _ & _ & images' & Heq & _).
      by apply not_all_resolve in Heq. }
  split; [exact Hpass|].
  intros Hnone Hok. apply Hpass in Hok.
  destruct Hok as (_ & _ & _ & _ & _ & _ & images & Heq & Hmore).
  rewrite Hnone in Heq. destruct images; [|discriminate Heq].
  unfold with_alt in Hmore. simpl in Hmore. lia.
Qed.
End SpecTestsFacts.

Section SpecTestsSamples.
Import Eff SpecTests PageCases.

(** The landing page passes the touch-target test with five proper targets
    out of six; the same page fails it when the site cannot be reached. *)
Lemma X23_touch_target_rate_witness :
  outcome (should_have_proper_touch_targets landing_page) = Val ()
  ∧ outcome (should_have_proper_touch_targets unreachable_page) ≠ Val ().
Proof.
  split.
  - apply (X23_touch_target_rate landing_page).
    + unfold checked_up_to. simpl. lia.
    + do 5 (split; [reflexivity|]). exists landing_boxes.
      split; [reflexivity|]. vm_compute. lia.
  - intros Hok.
    destruct (X23_touch_target_rate unreachable_page) as [Hpass _].
    { unfold checked_up_to. simpl. lia. }
    apply Hpass in Hok as [Hgoto _]. discriminate Hgoto.
Defined.

(** The landing page passes the accessibility test with three described
    images out of four; the same page fails it when the site cannot be
    reached. *)
Lemma X24_alt_text_rate_witness :
  outcome (should_meet_mobile_accessibility_standards landing_page) = Val ()
  ∧ outcome (should_meet_mobile_accessibility_standards unreachable_page) ≠ Val ().
Proof.
  split.
  - apply (X24_alt_text_rate landing_page).
    + unfold checked_up_to. simpl. lia.
    + do 6 (split; [reflexivity|]). exists landing_images.
      split; [reflexivity|]. vm_compute. lia.
  - intros Hok.
    destruct (X24_alt_text_rate unreachable_page) as [Hpass _].
    { unfold checked_up_to. simpl. lia. }
    apply Hpass in Hok as [Hgoto _]. discriminate Hgoto.
Defined.
End SpecTestsSamples.
